(** * Leny UI Automation: the client-visible contract, embedded in Rocq

    The development follows the layout of the repository:

    - [Ts]            the declarations of [types] (string unions and
                      interfaces) as data, so that field sets, field types
                      and optionality can be stated;
    - [ExecutionStatus] ... [NaturalLanguageRequest]
                      the same declarations as enumerations and records;
    - [Js]            the string operations the components rely on;
    - [Badge]         the [Badge] / [StatusBadge] components;
    - [NewTestPage]   the state and handlers of the "create new test" page;
    - [Engine]        the execution-result aggregation of the execution
                      service, which the frontend only consumes;
    - [Validation]    test case assembly and validation of the backend;
    - [Locator]       the locator resolution contract;
    - [Sample]        a test case, three runs and a page to evaluate on;
    - [React]         the trees components render to;
    - [Card]          the [Card] components;
    - [ExecutionsPage], [TestsPage]
                      the two list pages with their cards;
    - [NewTestPageUi] the "create new test" page as a loop over its events.

    The properties follow the definitions, in the same order. *)

From Stdlib Require Import Ascii.
From Stdlib Require String.
From stdpp Require Import base decidable option strings countable finite
  gmap gmultiset pretty list.

Local Open Scope string_scope.

(* ===================================================================== *)
(** * The declarations of [types]                                         *)
(* ===================================================================== *)

Module Ts.

(** A TypeScript type expression, as far as the declarations use them. *)
Inductive ty : Type :=
  | TString
  | TNumber
  | TBoolean
  | TUnknown
  | TRef (name : string)            (* a named type *)
  | TArray (elt : ty)               (* [elt[]] *)
  | TRecord (key val : ty)          (* [Record<key, val>] *)
  | TLiterals (members : list string). (* ['a' | 'b' | ...] *)

(** One member of an interface: [name: type] or [name?: type]. *)
Record field : Type := Field {
  fname : string;
  ftype : ty;
  optional : bool
}.

Definition required (n : string) (t : ty) : field := Field n t false.
Definition opt (n : string) (t : ty) : field := Field n t true.

Definition interface : Type := list field.

Definition field_names (i : interface) : list string := fname <$> i.

Fixpoint lookup_field (n : string) (i : interface) : option field :=
  match i with
  | [] => None
  | f :: rest => if bool_decide (fname f = n) then Some f
                 else lookup_field n rest
  end.

(** [without names i]: the interface [i] with the members [names] removed
    (TypeScript's [Omit<i, names>]). *)
Definition without (names : list string) (i : interface) : interface :=
  filter (λ f, fname f ∉ names) i.

(** ** The two string unions *)

Definition ExecutionStatus_decl : ty :=
  TLiterals ["pending"; "running"; "passed"; "failed"; "skipped"; "error"].

Definition TestStepType_decl : ty :=
  TLiterals ["navigate"; "click"; "fill"; "type"; "select"; "check";
             "uncheck"; "hover"; "wait"; "assert_text"; "assert_visible";
             "assert_hidden"; "assert_value"; "press_key"; "screenshot"].

(** ** The interfaces *)

Definition ElementLocator_decl : interface :=
  [ required "name" TString;
    opt "description" TString;
    opt "data_testid" TString;
    opt "id" TString;
    opt "aria_label" TString;
    opt "role" TString;
    opt "css" TString;
    opt "text" TString;
    opt "xpath" TString;
    opt "placeholder" TString ].

Definition TestStep_decl : interface :=
  [ required "step_number" TNumber;
    required "action" (TRef "TestStepType");
    required "description" TString;
    opt "element" (TRef "ElementLocator");
    opt "value" TString;
    opt "timeout" TNumber;
    opt "metadata" (TRecord TString TUnknown) ].

Definition TestCase_decl : interface :=
  [ required "id" TString;
    required "name" TString;
    required "description" TString;
    required "tags" (TArray TString);
    required "steps" (TArray (TRef "TestStep"));
    required "setup_steps" (TArray (TRef "TestStep"));
    required "teardown_steps" (TArray (TRef "TestStep"));
    required "created_at" TString;
    required "updated_at" TString;
    opt "last_run_status" (TRef "ExecutionStatus");
    opt "last_run_at" TString ].

Definition TestCaseCreate_decl : interface :=
  [ required "name" TString;
    required "description" TString;
    required "tags" (TArray TString);
    required "steps" (TArray (TRef "TestStep"));
    opt "setup_steps" (TArray (TRef "TestStep"));
    opt "teardown_steps" (TArray (TRef "TestStep")) ].

Definition StepResult_decl : interface :=
  [ required "step_number" TNumber;
    required "description" TString;
    required "status" (TRef "ExecutionStatus");
    required "action_type" TString;
    required "duration_ms" TNumber;
    opt "error_message" TString;
    opt "element_name" TString;
    required "has_screenshot" TBoolean ].

Definition TestExecution_decl : interface :=
  [ required "execution_id" TString;
    required "test_name" TString;
    required "status" (TRef "ExecutionStatus");
    required "started_at" TString;
    opt "completed_at" TString;
    required "duration_ms" TNumber;
    required "passed_steps" TNumber;
    required "failed_steps" TNumber;
    required "total_steps" TNumber;
    required "step_results" (TArray (TRef "StepResult"));
    opt "error_message" TString;
    opt "page_url" TString ].

Definition GeneratedTestResponse_decl : interface :=
  [ required "success" TBoolean;
    opt "test_case" (TRef "TestCaseCreate");
    opt "error" TString;
    required "tokens_used" TNumber;
    required "model_used" TString ].

Definition NaturalLanguageRequest_decl : interface :=
  [ required "description" TString;
    opt "context" (TRecord TString TUnknown) ].

Definition ExecutionRequest_decl : interface :=
  [ opt "test_id" TString;
    opt "test_case" (TRef "TestCaseCreate");
    opt "browser" (TLiterals ["chromium"; "firefox"; "webkit"]);
    opt "headless" TBoolean;
    opt "timeout" TNumber;
    opt "stop_on_failure" TBoolean ].

(** The identity and audit members of a [TestCase]. *)
Definition identity_audit_fields : list string :=
  ["id"; "created_at"; "updated_at"; "last_run_status"; "last_run_at"].

End Ts.

(* ===================================================================== *)
(** * The same declarations as Rocq types                                 *)
(* ===================================================================== *)

(** A value of TypeScript's [unknown], as it arrives over JSON. *)
#[local] Unset Elimination Schemes.
Inductive unknown : Type :=
  | JNull
  | JBool (b : bool)
  | JNumber (n : Z)
  | JString (s : string)
  | JArray (items : list unknown)
  | JObject (members : list (string * unknown)).
#[local] Set Elimination Schemes.

Module ExecutionStatus.

Inductive t : Type :=
  | pending
  | running
  | passed
  | failed
  | skipped
  | error.

#[global] Instance eq_dec : EqDecision t.
Proof. solve_decision. Defined.

(** The members in the order of the declaration. *)
Definition all : list t := [pending; running; passed; failed; skipped; error].

(** The string a member is on the wire and in the source. *)
Definition to_string (s : t) : string :=
  match s with
  | pending => "pending"
  | running => "running"
  | passed => "passed"
  | failed => "failed"
  | skipped => "skipped"
  | error => "error"
  end.

(** Which strings are admitted at type [ExecutionStatus]. *)
Definition of_string (s : string) : option t :=
  list_find (λ m, to_string m = s) all ≫= λ '(_, m), Some m.

Definition index (s : t) : nat :=
  match s with
  | pending => 0 | running => 1 | passed => 2
  | failed => 3 | skipped => 4 | error => 5
  end.

#[global] Instance countable : Countable t.
Proof.
  apply (inj_countable' index (λ n, default pending (all !! n))).
  by intros [].
Defined.

End ExecutionStatus.

Module TestStepType.

Inductive t : Type :=
  | navigate
  | click
  | fill
  | type
  | select
  | check
  | uncheck
  | hover
  | wait
  | assert_text
  | assert_visible
  | assert_hidden
  | assert_value
  | press_key
  | screenshot.

#[global] Instance eq_dec : EqDecision t.
Proof. solve_decision. Defined.

Definition all : list t :=
  [navigate; click; fill; type; select; check; uncheck; hover; wait;
   assert_text; assert_visible; assert_hidden; assert_value; press_key;
   screenshot].

Definition to_string (a : t) : string :=
  match a with
  | navigate => "navigate"
  | click => "click"
  | fill => "fill"
  | type => "type"
  | select => "select"
  | check => "check"
  | uncheck => "uncheck"
  | hover => "hover"
  | wait => "wait"
  | assert_text => "assert_text"
  | assert_visible => "assert_visible"
  | assert_hidden => "assert_hidden"
  | assert_value => "assert_value"
  | press_key => "press_key"
  | screenshot => "screenshot"
  end.

(** Which strings are admitted as the [action] of a step. *)
Definition of_string (s : string) : option t :=
  list_find (λ m, to_string m = s) all ≫= λ '(_, m), Some m.

End TestStepType.

Module ElementLocator.
Record t : Type := mk {
  name : string;
  description : option string;
  data_testid : option string;
  id : option string;
  aria_label : option string;
  role : option string;
  css : option string;
  text : option string;
  xpath : option string;
  placeholder : option string
}.
End ElementLocator.

Module TestStep.
Record t : Type := mk {
  step_number : nat;
  action : TestStepType.t;
  description : string;
  element : option ElementLocator.t;
  value : option string;
  timeout : option nat;
  metadata : option (gmap string unknown)
}.
End TestStep.

Module TestCase.
Record t : Type := mk {
  id : string;
  name : string;
  description : string;
  tags : list string;
  steps : list TestStep.t;
  setup_steps : list TestStep.t;
  teardown_steps : list TestStep.t;
  created_at : string;
  updated_at : string;
  last_run_status : option ExecutionStatus.t;
  last_run_at : option string
}.
End TestCase.

Module TestCaseCreate.
Record t : Type := mk {
  name : string;
  description : string;
  tags : list string;
  steps : list TestStep.t;
  setup_steps : option (list TestStep.t);
  teardown_steps : option (list TestStep.t)
}.
End TestCaseCreate.

Module StepResult.
Record t : Type := mk {
  step_number : nat;
  description : string;
  status : ExecutionStatus.t;
  action_type : string;
  duration_ms : nat;
  error_message : option string;
  element_name : option string;
  has_screenshot : bool
}.
End StepResult.

Module TestExecution.
Record t : Type := mk {
  execution_id : string;
  test_name : string;
  status : ExecutionStatus.t;
  started_at : string;
  completed_at : option string;
  duration_ms : nat;
  passed_steps : nat;
  failed_steps : nat;
  total_steps : nat;
  step_results : list StepResult.t;
  error_message : option string;
  page_url : option string
}.
End TestExecution.

Module GeneratedTestResponse.
Record t : Type := mk {
  success : bool;
  test_case : option TestCaseCreate.t;
  error : option string;
  tokens_used : nat;
  model_used : string
}.
End GeneratedTestResponse.

Module NaturalLanguageRequest.
Record t : Type := mk {
  description : string;
  context : option (gmap string unknown)
}.
End NaturalLanguageRequest.

(* ===================================================================== *)
(** * The string operations of the host language that the pages use       *)
(* ===================================================================== *)

Module Js.

(** [c.toUpperCase()] on one code unit.  Only the ASCII letters are mapped;
    every string the components uppercase is a status name, which is made
    of ASCII lower-case letters. *)
Definition upper_ascii (c : ascii) : ascii :=
  let n := nat_of_ascii c in
  if bool_decide (97 ≤ n ≤ 122)%nat then ascii_of_nat (n - 32) else c.

(** [s.toUpperCase()] *)
Fixpoint toUpperCase (s : string) : string :=
  match s with
  | EmptyString => EmptyString
  | String c rest => String (upper_ascii c) (toUpperCase rest)
  end.

(** [s.charAt(i)]: the one-character string at [i], or the empty string
    when [i] is out of range. *)
Definition charAt (s : string) (i : nat) : string :=
  match String.get i s with
  | Some c => String c EmptyString
  | None => EmptyString
  end.

(** [s.slice(start)] for a non-negative [start]. *)
Definition slice (s : string) (start : nat) : string :=
  String.substring start (String.length s - start)%nat s.

(** [a || b] on strings: the empty string is the only falsy one. *)
Definition or_else (a b : string) : string :=
  if bool_decide (a = "") then b else a.

(** White space as [trim] strips it, within ASCII. *)
Definition is_space (c : ascii) : bool :=
  bool_decide (nat_of_ascii c ∈ [9; 10; 11; 12; 13; 32]).

Fixpoint trimStart (s : string) : string :=
  match s with
  | EmptyString => EmptyString
  | String c rest => if is_space c then trimStart rest else s
  end.

(** Truthiness of [s.trim()]: some character of [s] is not white space.
    (Stripping the tail cannot empty a string whose head survives.) *)
Definition trim_truthy (s : string) : bool :=
  bool_decide (trimStart s ≠ "").

End Js.

(* ===================================================================== *)
(** * [components/ui/Badge]                                               *)
(* ===================================================================== *)

Module Badge.

Module Variant.
Inductive t : Type := default | success | warning | error | info.

#[global] Instance eq_dec : EqDecision t.
Proof. solve_decision. Defined.
End Variant.

Record BadgeProps : Type := {
  variant : option Variant.t;
  className : option string;
  children : string
}.

(** What a component renders to: the only host element used is [span]. *)
Inductive element : Type :=
  | span (className : string) (children : string).

Definition variantStyles (v : Variant.t) : string :=
  match v with
  | Variant.default => "bg-slate-100 text-slate-800 border-slate-200"
  | Variant.success => "bg-green-100 text-green-800 border-green-200"
  | Variant.warning => "bg-yellow-100 text-yellow-800 border-yellow-200"
  | Variant.error => "bg-red-100 text-red-800 border-red-200"
  | Variant.info => "bg-blue-100 text-blue-800 border-blue-200"
  end.

Definition base_class : string :=
  "inline-flex items-center px-2 py-0.5 text-xs font-medium rounded-full border".

Section Components.

(** [cn] of [lib/utils] joins class names; an absent argument is
    [undefined].  The components only pass arguments to it. *)
Variable cn : list (option string) → string.

Definition Badge (props : BadgeProps) : element :=
  let variant := default Variant.default (variant props) in
  span (cn [Some base_class; Some (variantStyles variant); className props])
       (children props).

Record StatusBadgeProps : Type := {
  status : ExecutionStatus.t;
  sb_className : option string
}.

Definition statusVariants (s : ExecutionStatus.t) : option Variant.t :=
  match s with
  | ExecutionStatus.passed => Some Variant.success
  | ExecutionStatus.failed => Some Variant.error
  | ExecutionStatus.error => Some Variant.error
  | ExecutionStatus.running => Some Variant.info
  | ExecutionStatus.pending => Some Variant.warning
  | ExecutionStatus.skipped => Some Variant.default
  end.

(** The [<Badge ...>] element that [StatusBadge] returns, as its props. *)
Definition StatusBadge (props : StatusBadgeProps) : BadgeProps :=
  let status := status props in
  let text := ExecutionStatus.to_string status in
  {| variant := statusVariants status;
     className := sb_className props;
     children := Js.toUpperCase (Js.charAt text 0) ++ Js.slice text 1 |}.

(** What ends up on the page. *)
Definition render_StatusBadge (props : StatusBadgeProps) : element :=
  Badge (StatusBadge props).

End Components.

(** The claim's wording of the label: the string with its first character
    uppercased. *)
Definition first_upper (s : string) : string :=
  match s with
  | EmptyString => EmptyString
  | String c rest => String (Js.upper_ascii c) rest
  end.

End Badge.

(* ===================================================================== *)
(** * The "create new test" page ([NewTestPage])                          *)
(* ===================================================================== *)

Module NewTestPage.

Inductive mode_t : Type := natural | manual.

(** The [useState] cells of the component. *)
Record state : Type := {
  mode : mode_t;
  naturalLanguage : string;
  generatedTest : option TestCaseCreate.t;   (* [null] is [None] *)
  testName : string
}.

(** The requests the page hands to [api] through its two mutations. *)
Inductive api_call : Type :=
  | generateTestFromNaturalLanguage (request : NaturalLanguageRequest.t)
  | createTest (testCase : TestCaseCreate.t).

(** A handler reads and writes the state cells and issues requests. *)
Definition handler (A : Type) : Type := state → A * state * list api_call.

#[global] Instance handler_ret : MRet handler := λ A a st, (a, st, []).
#[global] Instance handler_bind : MBind handler := λ A B f m st,
  let '(a, st1, calls1) := m st in
  let '(b, st2, calls2) := f a st1 in
  (b, st2, (calls1 ++ calls2)%list).

Definition read : handler state := λ st, (st, st, []).
Definition setGeneratedTest (t : option TestCaseCreate.t) : handler unit :=
  λ st, (tt, {| mode := mode st; naturalLanguage := naturalLanguage st;
                generatedTest := t; testName := testName st |}, []).
Definition setTestName (n : string) : handler unit :=
  λ st, (tt, {| mode := mode st; naturalLanguage := naturalLanguage st;
                generatedTest := generatedTest st; testName := n |}, []).
Definition mutate (c : api_call) : handler unit := λ st, (tt, st, [c]).

(** [generateMutation.onSuccess] *)
Definition onSuccess (data : GeneratedTestResponse.t) : handler unit :=
  match GeneratedTestResponse.success data,
        GeneratedTestResponse.test_case data with
  | true, Some test_case =>
      setGeneratedTest (Some test_case) ≫= λ _,
      setTestName (TestCaseCreate.name test_case)
  | _, _ => mret tt
  end.

Definition handleGenerate : handler unit :=
  st ← read;
  if Js.trim_truthy (naturalLanguage st) then
    mutate (generateTestFromNaturalLanguage
              {| NaturalLanguageRequest.description := naturalLanguage st;
                 NaturalLanguageRequest.context := None |})
  else mret tt.

(** [{ ...generatedTest, name }]: the object spread followed by one
    overriding member. *)
Definition spread_with_name (t : TestCaseCreate.t) (name : string)
  : TestCaseCreate.t :=
  {| TestCaseCreate.name := name;
     TestCaseCreate.description := TestCaseCreate.description t;
     TestCaseCreate.tags := TestCaseCreate.tags t;
     TestCaseCreate.steps := TestCaseCreate.steps t;
     TestCaseCreate.setup_steps := TestCaseCreate.setup_steps t;
     TestCaseCreate.teardown_steps := TestCaseCreate.teardown_steps t |}.

Definition handleSave : handler unit :=
  st ← read;
  match generatedTest st with
  | Some generatedTest =>
      mutate (createTest
                (spread_with_name generatedTest
                   (Js.or_else (testName st)
                               (TestCaseCreate.name generatedTest))))
  | None => mret tt
  end.

(** The requests a handler issues from a state. *)
Definition requests {A} (h : handler A) (st : state) : list api_call :=
  (h st).2.

Definition final_state {A} (h : handler A) (st : state) : state :=
  (h st).1.2.

End NewTestPage.

(* ===================================================================== *)
(** * Execution result aggregation                                        *)
(* ===================================================================== *)

Module Engine.

Import ExecutionStatus.

(** Modelled from the spec: the execution engine that concludes steps is
    not among the frontend sources, which only declare [StepResult].  A
    step goes "pending -> running -> exactly one of passed | failed |
    skipped | error", and a failure "carries a human-readable message". *)
Inductive conclusion : Type :=
  | Passed
  | Failed (message : string)
  | Skipped
  | Errored (message : string).

Definition conclusion_status (c : conclusion) : ExecutionStatus.t :=
  match c with
  | Passed => passed
  | Failed _ => failed
  | Skipped => skipped
  | Errored _ => error
  end.

Definition conclusion_message (c : conclusion) : option string :=
  match c with
  | Failed m | Errored m => Some m
  | Passed | Skipped => None
  end.

(** Modelled from the spec: the engine's construction of a [StepResult],
    which is not among the sources: "the originating step_number, its
    description (copied at execution time), an ExecutionStatus, the
    action_type actually performed, duration_ms, an optional
    error_message, an optional element_name (copied from the locator, if
    any), and a boolean has_screenshot flag". *)
Definition record_step (step : TestStep.t) (c : conclusion)
    (duration_ms : nat) (has_screenshot : bool) : StepResult.t :=
  {| StepResult.step_number := TestStep.step_number step;
     StepResult.description := TestStep.description step;
     StepResult.status := conclusion_status c;
     StepResult.action_type := TestStepType.to_string (TestStep.action step);
     StepResult.duration_ms := duration_ms;
     StepResult.error_message := conclusion_message c;
     StepResult.element_name := ElementLocator.name <$> TestStep.element step;
     StepResult.has_screenshot := has_screenshot |}.

(** Modelled from the spec: one step of the aggregation fold of the
    engine, which is not among the sources.  The verdict starts at
    [skipped] ("no step actually ran"), a failure is "never cleared by
    later passing steps", and anything else than a skip makes it
    [passed]. *)
Definition absorb (verdict s : ExecutionStatus.t) : ExecutionStatus.t :=
  match verdict, s with
  | failed, _ | _, failed => failed
  | skipped, skipped => skipped
  | _, _ => passed
  end.

(** Modelled from the spec: the derivation of the terminal status by the
    engine, which is not among the sources: the fold of the step statuses,
    overridden by a harness-level fault. *)
Definition derive_status (harness_fault : bool)
    (statuses : list ExecutionStatus.t) : ExecutionStatus.t :=
  if harness_fault then error else foldl absorb skipped statuses.

(** Modelled from the spec: the transition rule in the spec's own words,
    over the multiset of step statuses: "error if a harness-level fault
    occurred, else failed if any step result has status failed, else
    skipped if every step result has status skipped, else passed". *)
Definition terminal_rule (harness_fault : bool)
    (statuses : gmultiset ExecutionStatus.t) : ExecutionStatus.t :=
  if harness_fault then error
  else if bool_decide (failed ∈ statuses) then failed
  else if bool_decide (Forall (λ s, s = skipped) (elements statuses))
       then skipped
  else passed.

Definition step_statuses (e : TestExecution.t) : list ExecutionStatus.t :=
  StepResult.status <$> TestExecution.step_results e.

(** The number of step results of an execution with a given status. *)
Definition count_status (s : ExecutionStatus.t) (e : TestExecution.t) : nat :=
  length (filter (λ r, StepResult.status r = s) (TestExecution.step_results e)).

Definition bump (s at_ : ExecutionStatus.t) (n : nat) : nat :=
  if bool_decide (s = at_) then S n else n.

(** Modelled from the spec: the life of a [TestExecution] in the engine,
    which is not among the sources: "pending (created, not started) ->
    running (first step dispatched) -> one terminal state". *)
Definition start (execution_id test_name started_at : string)
  : TestExecution.t :=
  {| TestExecution.execution_id := execution_id;
     TestExecution.test_name := test_name;
     TestExecution.status := pending;
     TestExecution.started_at := started_at;
     TestExecution.completed_at := None;
     TestExecution.duration_ms := 0;
     TestExecution.passed_steps := 0;
     TestExecution.failed_steps := 0;
     TestExecution.total_steps := 0;
     TestExecution.step_results := [];
     TestExecution.error_message := None;
     TestExecution.page_url := None |}.

(** Modelled from the spec: appending one concluded step; the counters are
    "counts over all executed steps" and [step_results] is in execution
    order. *)
Definition record (e : TestExecution.t) (r : StepResult.t) : TestExecution.t :=
  {| TestExecution.execution_id := TestExecution.execution_id e;
     TestExecution.test_name := TestExecution.test_name e;
     TestExecution.status := running;
     TestExecution.started_at := TestExecution.started_at e;
     TestExecution.completed_at := None;
     TestExecution.duration_ms := TestExecution.duration_ms e;
     TestExecution.passed_steps :=
       bump (StepResult.status r) passed (TestExecution.passed_steps e);
     TestExecution.failed_steps :=
       bump (StepResult.status r) failed (TestExecution.failed_steps e);
     TestExecution.total_steps := S (TestExecution.total_steps e);
     TestExecution.step_results := (TestExecution.step_results e ++ [r])%list;
     TestExecution.error_message := TestExecution.error_message e;
     TestExecution.page_url := TestExecution.page_url e |}.

(** Modelled from the spec: the end of a run, after the last step or on an
    abort; the top-level [error_message] is "set when execution aborts
    before completing", and [duration_ms] is the wall-clock span. *)
Definition complete (e : TestExecution.t) (completed_at : string)
    (duration_ms : nat) (harness_fault : option string)
    (page_url : option string) : TestExecution.t :=
  {| TestExecution.execution_id := TestExecution.execution_id e;
     TestExecution.test_name := TestExecution.test_name e;
     TestExecution.status :=
       derive_status (bool_decide (is_Some harness_fault)) (step_statuses e);
     TestExecution.started_at := TestExecution.started_at e;
     TestExecution.completed_at := Some completed_at;
     TestExecution.duration_ms := duration_ms;
     TestExecution.passed_steps := TestExecution.passed_steps e;
     TestExecution.failed_steps := TestExecution.failed_steps e;
     TestExecution.total_steps := TestExecution.total_steps e;
     TestExecution.step_results := TestExecution.step_results e;
     TestExecution.error_message := harness_fault;
     TestExecution.page_url := page_url |}.

(** Modelled from the spec: what the engine, which is not among the
    sources, reports while it runs a test case: each step as it concludes,
    in execution order, and then the end of the run. *)
Inductive event : Type :=
  | StepConcluded (step : TestStep.t) (c : conclusion)
      (duration_ms : nat) (has_screenshot : bool)
  | Completed (completed_at : string) (duration_ms : nat)
      (harness_fault : option string) (page_url : option string).

(** Modelled from the spec: the state machine of the aggregation; a
    terminal execution never changes again. *)
Definition apply (e : TestExecution.t) (ev : event) : TestExecution.t :=
  match TestExecution.completed_at e with
  | Some _ => e
  | None =>
      match ev with
      | StepConcluded step c d shot => record e (record_step step c d shot)
      | Completed at_ d fault url => complete e at_ d fault url
      end
  end.

Definition run (execution_id test_name started_at : string)
    (events : list event) : TestExecution.t :=
  foldl apply (start execution_id test_name started_at) events.

(** One concluded step as the engine reports it: the step, how it
    concluded, how long it took and whether a screenshot was taken. *)
Definition concluded_step (r : TestStep.t * conclusion * nat * bool) : event :=
  StepConcluded r.1.1.1 r.1.1.2 r.1.2 r.2.

(** The status with which a reported step concluded. *)
Definition reported_status (r : TestStep.t * conclusion * nat * bool)
  : ExecutionStatus.t :=
  conclusion_status r.1.1.2.

(** The statuses a concluded step can have. *)
Definition concluded (s : ExecutionStatus.t) : Prop :=
  s ∈ [passed; failed; skipped; error].

(** What the aggregation keeps true of an execution at every moment: the
    counters count the step results, and every recorded step has
    concluded. *)
Record counts_consistent (e : TestExecution.t) : Prop := {
  total_is_length :
    TestExecution.total_steps e = length (TestExecution.step_results e);
  passed_is_count : TestExecution.passed_steps e = count_status passed e;
  failed_is_count : TestExecution.failed_steps e = count_status failed e;
  steps_concluded : Forall concluded (step_statuses e)
}.

(** A step result carries a message exactly when it failed or errored. *)
Definition message_iff_failure (r : StepResult.t) : Prop :=
  is_Some (StepResult.error_message r)
  ↔ StepResult.status r = failed ∨ StepResult.status r = error.

End Engine.

(* ===================================================================== *)
(** * Test case assembly and validation                                   *)
(* ===================================================================== *)

Module Validation.

(** Modelled from the spec: the errors of the validation of the backend,
    which is not among the frontend sources: a test case with an empty
    body is rejected, and a step that needs an element but has none
    signals "a StepValidationError naming the step_number and the missing
    field". *)
Inductive ValidationError : Type :=
  | EmptyBody
  | StepValidationError (step_number : nat) (missing_field : string).

(** Modelled from the spec: which actions need an element, for the
    validation that is not among the sources: "any non-navigate, non-wait,
    non-assert_text-without-target action". *)
Definition requires_element (a : TestStepType.t) : bool :=
  bool_decide (a ∉ [TestStepType.navigate; TestStepType.wait;
                    TestStepType.assert_text]).

(** Modelled from the spec: the check of one step by the validation that
    is not among the sources; the missing field is named. *)
Definition check_step (s : TestStep.t) : option ValidationError :=
  match TestStep.element s with
  | None =>
      if requires_element (TestStep.action s)
      then Some (StepValidationError (TestStep.step_number s) "element")
      else None
  | Some _ => None
  end.

(** Modelled from the spec: the validation of a [TestCaseCreate], which is
    not among the sources: "reject a test case whose body steps is empty",
    then "reject a step whose action requires an element but omits one".
    [None] is acceptance. *)
Definition validate (tc : TestCaseCreate.t) : option ValidationError :=
  match TestCaseCreate.steps tc with
  | [] => Some EmptyBody
  | _ :: _ =>
      head (omap check_step
              (default [] (TestCaseCreate.setup_steps tc)
               ++ TestCaseCreate.steps tc
               ++ default [] (TestCaseCreate.teardown_steps tc))%list)
  end.

Definition with_step_number (n : nat) (s : TestStep.t) : TestStep.t :=
  {| TestStep.step_number := n;
     TestStep.action := TestStep.action s;
     TestStep.description := TestStep.description s;
     TestStep.element := TestStep.element s;
     TestStep.value := TestStep.value s;
     TestStep.timeout := TestStep.timeout s;
     TestStep.metadata := TestStep.metadata s |}.

(** Modelled from the spec: the deterministic renumbering on save, dense
    from 1 within a phase. *)
Definition renumber (steps : list TestStep.t) : list TestStep.t :=
  imap (λ i s, with_step_number (S i) s) steps.

(** Modelled from the spec: "on acceptance, assign id, created_at,
    updated_at (equal on creation), and tags deduplicated". *)
Definition assemble (id now : string) (tc : TestCaseCreate.t) : TestCase.t :=
  {| TestCase.id := id;
     TestCase.name := TestCaseCreate.name tc;
     TestCase.description := TestCaseCreate.description tc;
     TestCase.tags := remove_dups (TestCaseCreate.tags tc);
     TestCase.steps := renumber (TestCaseCreate.steps tc);
     TestCase.setup_steps :=
       renumber (default [] (TestCaseCreate.setup_steps tc));
     TestCase.teardown_steps :=
       renumber (default [] (TestCaseCreate.teardown_steps tc));
     TestCase.created_at := now;
     TestCase.updated_at := now;
     TestCase.last_run_status := None;
     TestCase.last_run_at := None |}.

(** Modelled from the spec: the persisted test cases of the backend. *)
Definition store : Type := list TestCase.t.

(** Modelled from the spec: the create operation of the backend, which is
    not among the sources; a rejected test case is "rejected before
    persistence, never partially saved". *)
Definition create_test (id now : string) (tc : TestCaseCreate.t)
    (persisted : store) : (ValidationError + TestCase.t) * store :=
  match validate tc with
  | Some err => (inl err, persisted)
  | None =>
      let saved := assemble id now tc in
      (inr saved, (persisted ++ [saved])%list)
  end.

End Validation.

(* ===================================================================== *)
(** * Locator resolution                                                  *)
(* ===================================================================== *)

Module Locator.

(** Modelled from the spec: the candidate strategies of the resolver of
    the execution engine, which is not among the frontend sources, one per
    hint of an [ElementLocator]; the accessible label and the role form
    one strategy. *)
Inductive strategy : Type :=
  | ByTestId (data_testid : string)
  | ByLabelRole (aria_label role : option string)
  | ById (id : string)
  | ByCss (css : string)
  | ByText (text : string)
  | ByXPath (xpath : string)
  | ByPlaceholder (placeholder : string).

(** Modelled from the spec: the "accessible label/role pair" strategy of
    the resolver that is not among the sources; it is a candidate when
    either hint is present. *)
Definition label_role (l : ElementLocator.t) : option strategy :=
  match ElementLocator.aria_label l, ElementLocator.role l with
  | None, None => None
  | label, role => Some (ByLabelRole label role)
  end.

(** Modelled from the spec: the precedence "stable test identifier ->
    accessible label/role pair -> HTML id -> structural selector ->
    visible text -> structural path expression -> placeholder hint";
    absent hints give no strategy. *)
Definition candidates (l : ElementLocator.t) : list strategy :=
  omap (λ s : option strategy, s)
    [ ByTestId <$> ElementLocator.data_testid l;
      label_role l;
      ById <$> ElementLocator.id l;
      ByCss <$> ElementLocator.css l;
      ByText <$> ElementLocator.text l;
      ByXPath <$> ElementLocator.xpath l;
      ByPlaceholder <$> ElementLocator.placeholder l ].

(** Modelled from the spec: the failure "carrying the locator name and the
    list of attempted strategies and their match counts". *)
Record LocatorResolutionError : Type := {
  locator_name : string;
  attempts : list (strategy * nat)
}.

Section Resolver.

(** The page, and the lookup of the "live, visible, interactable"
    elements a strategy matches on it, belong to the browser driver and
    are left open. *)
Context {Page Element : Type}.
Variable matching : strategy → Page → list Element.

(** Modelled from the spec: a strategy that yields "zero or multiple
    matches" is inconclusive. *)
Definition inconclusive (page : Page) (s : strategy) : Prop :=
  length (matching s page) ≠ 1.

(** Modelled from the spec: "select the first strategy that yields exactly
    one element; strategies that yield zero or multiple matches are
    skipped". *)
Fixpoint first_unique (page : Page) (todo : list strategy)
    (tried : list (strategy * nat))
  : list (strategy * nat) + strategy * Element :=
  match todo with
  | [] => inl tried
  | s :: rest =>
      match matching s page with
      | [e] => inr (s, e)
      | found => first_unique page rest (tried ++ [(s, length found)])%list
      end
  end.

(** Modelled from the spec: resolution against a page; it hands the page
    on, since "resolution must not mutate the page; it is a pure
    lookup". *)
Definition resolve (l : ElementLocator.t) (page : Page)
  : (LocatorResolutionError + strategy * Element) * Page :=
  match first_unique page (candidates l) [] with
  | inl tried =>
      (inl {| locator_name := ElementLocator.name l; attempts := tried |},
       page)
  | inr hit => (inr hit, page)
  end.

(** Modelled from the spec: the contract of 4.1 on the result of a
    resolution, for any resolver: a match is the single element of "the
    first strategy that yields exactly one" element, every candidate
    before it being inconclusive; a failure means "no strategy yields a
    unique match" and carries "the locator name and the list of attempted
    strategies and their match counts". *)
Definition meets_contract (l : ElementLocator.t) (page : Page)
    (result : LocatorResolutionError + strategy * Element) : Prop :=
  match result with
  | inr (s, e) =>
      matching s page = [e]
      ∧ ∃ before after,
          candidates l = (before ++ s :: after)%list
          ∧ Forall (inconclusive page) before
  | inl err =>
      locator_name err = ElementLocator.name l
      ∧ attempts err = (λ s, (s, length (matching s page))) <$> candidates l
      ∧ Forall (inconclusive page) (candidates l)
  end.

(** A resolver of some execution engine, of which nothing is known: what
    it may answer for a locator on a page, and the page it leaves
    behind.  It need not be a function of its input. *)
Definition resolver : Type :=
  ElementLocator.t → Page →
  (LocatorResolutionError + strategy * Element) * Page → Prop.

(** Modelled from the spec: a resolver honours the contract when each of
    its answers meets it and "does not mutate the page". *)
Definition conforms (engine : resolver) : Prop :=
  ∀ l page result page',
    engine l page (result, page') →
    page' = page ∧ meets_contract l page result.

(** [resolve] as a resolver. *)
Definition reference : resolver := λ l page answer, answer = resolve l page.

End Resolver.

End Locator.

(* ===================================================================== *)
(** * Sample data                                                         *)
(* ===================================================================== *)

Module Sample.

Definition no_hints (name : string) : ElementLocator.t :=
  {| ElementLocator.name := name;
     ElementLocator.description := None;
     ElementLocator.data_testid := None;
     ElementLocator.id := None;
     ElementLocator.aria_label := None;
     ElementLocator.role := None;
     ElementLocator.css := None;
     ElementLocator.text := None;
     ElementLocator.xpath := None;
     ElementLocator.placeholder := None |}.

(** A locator with a structural selector only. *)
Definition by_css (name css : string) : ElementLocator.t :=
  {| ElementLocator.name := name;
     ElementLocator.description := None;
     ElementLocator.data_testid := None;
     ElementLocator.id := None;
     ElementLocator.aria_label := None;
     ElementLocator.role := None;
     ElementLocator.css := Some css;
     ElementLocator.text := None;
     ElementLocator.xpath := None;
     ElementLocator.placeholder := None |}.

(** A locator with a selector that is not unique and an id that is. *)
Definition login_button : ElementLocator.t :=
  {| ElementLocator.name := "login button";
     ElementLocator.description := None;
     ElementLocator.data_testid := None;
     ElementLocator.id := Some "login";
     ElementLocator.aria_label := None;
     ElementLocator.role := None;
     ElementLocator.css := Some "button";
     ElementLocator.text := None;
     ElementLocator.xpath := None;
     ElementLocator.placeholder := None |}.

Definition step (n : nat) (action : TestStepType.t) (description : string)
    (element : option ElementLocator.t) : TestStep.t :=
  {| TestStep.step_number := n;
     TestStep.action := action;
     TestStep.description := description;
     TestStep.element := element;
     TestStep.value := None;
     TestStep.timeout := None;
     TestStep.metadata := None |}.

Definition open_page : TestStep.t :=
  step 1 TestStepType.navigate "open the login page" None.
Definition press_login : TestStep.t :=
  step 2 TestStepType.click "press login" (Some login_button).
Definition see_welcome : TestStep.t :=
  step 3 TestStepType.assert_text "see the welcome message" None.
Definition sign_out : TestStep.t :=
  step 1 TestStepType.click "sign out" (Some (by_css "sign out" "a.out")).

Definition login_test : TestCaseCreate.t :=
  {| TestCaseCreate.name := "login";
     TestCaseCreate.description := "log in and see the dashboard";
     TestCaseCreate.tags := ["smoke"; "auth"; "smoke"];
     TestCaseCreate.steps := [open_page; press_login; see_welcome];
     TestCaseCreate.setup_steps := None;
     TestCaseCreate.teardown_steps := Some [sign_out] |}.

Definition no_body : TestCaseCreate.t :=
  {| TestCaseCreate.name := "nothing";
     TestCaseCreate.description := "";
     TestCaseCreate.tags := [];
     TestCaseCreate.steps := [];
     TestCaseCreate.setup_steps := Some [open_page];
     TestCaseCreate.teardown_steps := None |}.

(** Three body steps that all pass. *)
Definition all_passed : list Engine.event :=
  [ Engine.StepConcluded open_page Engine.Passed 120 false;
    Engine.StepConcluded press_login Engine.Passed 35 false;
    Engine.StepConcluded see_welcome Engine.Passed 8 true;
    Engine.Completed "2024-05-01T10:00:01Z" 400 None (Some "/dashboard") ].

(** Step 2 fails, steps 1 and 3 and the teardown step pass. *)
Definition second_failed : list Engine.event :=
  [ Engine.StepConcluded open_page Engine.Passed 120 false;
    Engine.StepConcluded press_login (Engine.Failed "timed out")
      900 true;
    Engine.StepConcluded see_welcome Engine.Passed 8 false;
    Engine.StepConcluded sign_out Engine.Passed 20 false;
    Engine.Completed "2024-05-01T10:00:02Z" 1200 None None ].

(** The browser crashes during the second step. *)
Definition crashed : list Engine.event :=
  [ Engine.StepConcluded open_page Engine.Passed 120 false;
    Engine.StepConcluded press_login (Engine.Errored "browser crashed")
      10 false;
    Engine.Completed "2024-05-01T10:00:01Z" 140 (Some "browser crashed")
      None ].

Definition run (events : list Engine.event) : TestExecution.t :=
  Engine.run "exec-1" "login" "2024-05-01T10:00:00Z" events.

(** A page as a list of elements, each with the attributes and the
    selectors it answers to. *)
Record node : Type := {
  node_id : option string;
  node_testid : option string;
  node_text : string;
  node_selectors : list string
}.

Definition node_matches (s : Locator.strategy) (n : node) : bool :=
  match s with
  | Locator.ByTestId t => bool_decide (node_testid n = Some t)
  | Locator.ById i => bool_decide (node_id n = Some i)
  | Locator.ByText t => bool_decide (node_text n = t)
  | Locator.ByCss sel | Locator.ByXPath sel =>
      bool_decide (sel ∈ node_selectors n)
  | Locator.ByLabelRole _ _ | Locator.ByPlaceholder _ => false
  end.

Definition matching (s : Locator.strategy) (page : list node) : list node :=
  List.filter (node_matches s) page.

Definition login_page : list node :=
  [ {| node_id := Some "login"; node_testid := None; node_text := "Log in";
       node_selectors := ["button"; "form > button"] |};
    {| node_id := Some "cancel"; node_testid := None; node_text := "Cancel";
       node_selectors := ["button"] |} ].

Definition page_state (generated : option TestCaseCreate.t)
    (testName : string) : NewTestPage.state :=
  {| NewTestPage.mode := NewTestPage.natural;
     NewTestPage.naturalLanguage := "log in and see the dashboard";
     NewTestPage.generatedTest := generated;
     NewTestPage.testName := testName |}.

End Sample.

(* ===================================================================== *)
(** * What components render to                                           *)
(* ===================================================================== *)

Module React.

(** The value of a prop handed to a component that is not a class name:
    a string, a boolean, or one of the page's handlers. *)
Inductive prop : Type :=
  | PString (s : string)
  | PBool (b : bool)
  | PHandler (name : string).

(** A rendered tree: text, a host element with its class name, an element
    of a component from outside these sources ([Link], [Button], [Input],
    an icon) with its props, and a child carrying a [key]. *)
#[local] Unset Elimination Schemes.
Inductive node : Type :=
  | text (s : string)
  | el (tag : string) (className : option string) (children : list node)
  | component (name : string) (props : list (string * prop))
      (children : list node)
  | keyed (key : string) (child : node).
#[local] Set Elimination Schemes.

(** The [span] of a [Badge] as a node. *)
Definition of_badge (b : Badge.element) : node :=
  match b with
  | Badge.span className children => el "span" (Some className) [text children]
  end.

(** [{n}] for a number: its decimal digits. *)
Definition number (n : nat) : node := text (pretty n).

(** [{x && jsx}] for an optional string [x]: [undefined] renders nothing,
    the empty string is falsy and is itself the value of the expression,
    any other string gives the element. *)
Definition and_string (x : option string) (jsx : string → node) : list node :=
  match x with
  | None => []
  | Some s => if bool_decide (s = "") then [text ""] else [jsx s]
  end.

(** [{x && jsx}] for an object or [null] / [undefined]. *)
Definition and_object {A} (x : option A) (jsx : A → node) : list node :=
  match x with
  | None => []
  | Some a => [jsx a]
  end.

(** [{b && jsx}] for a boolean: [false] renders nothing. *)
Definition and_bool (b : bool) (jsx : node) : list node :=
  if b then [jsx] else [].

(** The host elements with a given tag, in document order. *)
Fixpoint elements_with_tag (tag : string) (n : node) : list node :=
  match n with
  | text _ => []
  | el t _ children =>
      ((if bool_decide (t = tag) then [n] else [])
       ++ List.flat_map (elements_with_tag tag) children)%list
  | component _ _ children => List.flat_map (elements_with_tag tag) children
  | keyed _ child => elements_with_tag tag child
  end.

(** The keyed children of a tree with their keys, in document order. *)
Fixpoint keyed_nodes (n : node) : list (string * node) :=
  match n with
  | text _ => []
  | el _ _ children | component _ _ children =>
      List.flat_map keyed_nodes children
  | keyed key child => ((key, child) :: keyed_nodes child)%list
  end.

(** The value of a prop of a component element. *)
Definition prop_of (name : string) (n : node) : option prop :=
  match n with
  | component _ props _ =>
      (λ found, found.2.2) <$> list_find (λ p, p.1 = name) props
  | _ => None
  end.

End React.

(* ===================================================================== *)
(** * [components/ui/Card]                                                *)
(* ===================================================================== *)

Module Card.

Section Components.

Variable cn : list (option string) → string.

Definition Card (className : option string) (children : list React.node)
  : React.node :=
  React.el "div"
    (Some (cn [Some "bg-white rounded-xl border shadow-sm overflow-hidden";
               className]))
    children.

Definition CardHeader (className : option string)
    (children : list React.node) : React.node :=
  React.el "div" (Some (cn [Some "px-6 py-4 border-b"; className])) children.

Definition CardTitle (className : option string)
    (children : list React.node) : React.node :=
  React.el "h3"
    (Some (cn [Some "font-semibold text-lg text-slate-900"; className]))
    children.

Definition CardDescription (className : option string)
    (children : list React.node) : React.node :=
  React.el "p" (Some (cn [Some "text-sm text-slate-500 mt-1"; className]))
    children.

Definition CardContent (className : option string)
    (children : list React.node) : React.node :=
  React.el "div" (Some (cn [Some "px-6 py-4"; className])) children.

Definition CardFooter (className : option string)
    (children : list React.node) : React.node :=
  React.el "div" (Some (cn [Some "px-6 py-4 border-t bg-slate-50"; className]))
    children.

End Components.

End Card.

(** The result of [useQuery]: the data once it is there, the loading flag,
    and the error or [null]. *)
Record query_result (A : Type) : Type := {
  data : option A;
  isLoading : bool;
  error : option string
}.
Arguments data {A} _.
Arguments isLoading {A} _.
Arguments error {A} _.

(** The parts shared by the headers of the list pages. *)
Module Header.

Definition logo : React.node :=
  React.component "Link"
    [("href", React.PString "/");
     ("className", React.PString "flex items-center gap-2")]
    [ React.el "div"
        (Some "w-8 h-8 bg-primary-600 rounded-lg flex items-center justify-center")
        [React.el "span" (Some "text-white font-bold text-lg") [React.text "L"]];
      React.el "span" (Some "font-semibold text-xl text-slate-900")
        [React.text "Leny"] ].

Definition icon (name className : string) : React.node :=
  React.component name [("className", React.PString className)] [].

End Header.

(* ===================================================================== *)
(** * The executions page ([ExecutionsPage], [ExecutionCard])             *)
(* ===================================================================== *)

Module ExecutionsPage.

(** The icons of [lucide-react] the card chooses from. *)
Inductive icon : Type := Clock | CheckCircle | XCircle | AlertCircle.

#[global] Instance icon_eq_dec : EqDecision icon.
Proof. solve_decision. Defined.

Definition icon_name (i : icon) : string :=
  match i with
  | Clock => "Clock"
  | CheckCircle => "CheckCircle"
  | XCircle => "XCircle"
  | AlertCircle => "AlertCircle"
  end.

Definition StatusIcon (status : ExecutionStatus.t) : icon :=
  match status with
  | ExecutionStatus.passed => CheckCircle
  | ExecutionStatus.failed => XCircle
  | ExecutionStatus.error => AlertCircle
  | ExecutionStatus.running => Clock
  | ExecutionStatus.pending => Clock
  | ExecutionStatus.skipped => AlertCircle
  end.

Definition statusColor (status : ExecutionStatus.t) : string :=
  match status with
  | ExecutionStatus.passed => "text-green-600"
  | ExecutionStatus.failed => "text-red-600"
  | ExecutionStatus.error => "text-red-600"
  | ExecutionStatus.running => "text-blue-600"
  | ExecutionStatus.pending => "text-yellow-600"
  | ExecutionStatus.skipped => "text-slate-400"
  end.

Section Components.

(** [cn], [formatDuration] and [formatRelativeTime] of [lib/utils] are
    only called here. *)
Variable cn : list (option string) → string.
Variable formatDuration : nat → string.
Variable formatRelativeTime : string → string.

Definition ExecutionCard (execution : TestExecution.t) : React.node :=
  let StatusIcon := StatusIcon (TestExecution.status execution) in
  let statusColor := statusColor (TestExecution.status execution) in
  Card.Card cn (Some "hover:shadow-md transition-shadow")
    [ Card.CardContent cn (Some "flex items-center gap-4 py-4")
        ([ Header.icon (icon_name StatusIcon)
             ("w-6 h-6 " ++ statusColor ++ " flex-shrink-0");
           React.el "div" (Some "flex-1 min-w-0")
             ([ React.el "div" (Some "flex items-center gap-3 mb-1")
                  [ React.el "span"
                      (Some "font-medium text-slate-900 truncate")
                      [React.text (TestExecution.test_name execution)];
                    React.of_badge
                      (Badge.render_StatusBadge cn
                         {| Badge.status := TestExecution.status execution;
                            Badge.sb_className := None |}) ];
                React.el "div"
                  (Some "flex items-center gap-4 text-sm text-slate-500")
                  [ React.el "span" None
                      [ React.number (TestExecution.passed_steps execution);
                        React.text "/";
                        React.number (TestExecution.total_steps execution);
                        React.text " steps passed" ];
                    React.el "span" None
                      [React.text
                         (formatDuration (TestExecution.duration_ms execution))];
                    React.el "span" None
                      [React.text
                         (formatRelativeTime
                            (TestExecution.started_at execution))] ] ]
              ++ React.and_string (TestExecution.error_message execution)
                   (λ error_message,
                      React.el "p" (Some "text-sm text-red-600 mt-1 truncate")
                        [React.text error_message]))%list ]
         ++ React.and_string (TestExecution.page_url execution)
              (λ page_url,
                 React.el "span"
                   (Some "text-xs text-slate-400 truncate max-w-[200px]")
                   [React.text page_url]))%list ].

(** The children of [<main>]: the nested conditional of the page. *)
Definition main (q : query_result (list TestExecution.t)) : React.node :=
  if isLoading q then
    React.el "div" (Some "text-center py-12")
      [ React.el "div"
          (Some "animate-spin h-8 w-8 border-4 border-primary-600 border-t-transparent rounded-full mx-auto mb-4")
          [];
        React.el "p" (Some "text-slate-500") [React.text "Loading executions..."] ]
  else
    match error q with
    | Some _ =>
        Card.Card cn None
          [ Card.CardContent cn (Some "text-center py-12")
              [ React.el "p" (Some "text-red-600 mb-2")
                  [React.text "Failed to load executions"];
                React.el "p" (Some "text-slate-500 text-sm")
                  [React.text
                     "Make sure the backend is running at http://localhost:8000"] ] ]
    | None =>
        match data q with
        | Some (first :: rest) =>
            React.el "div" (Some "space-y-4")
              ((λ execution,
                  React.keyed (TestExecution.execution_id execution)
                    (ExecutionCard execution)) <$> (first :: rest))
        | _ =>
            Card.Card cn None
              [ Card.CardContent cn (Some "text-center py-12")
                  [ React.el "p" (Some "text-slate-900 font-medium mb-2")
                      [React.text "No executions yet"];
                    React.el "p" (Some "text-slate-500 text-sm")
                      [React.text "Run a test to see execution history here"] ] ]
        end
    end.

Definition ExecutionsPage (q : query_result (list TestExecution.t))
  : React.node :=
  React.el "div" (Some "min-h-screen bg-slate-50")
    [ React.el "header" (Some "bg-white border-b sticky top-0 z-40")
        [ React.el "div" (Some "max-w-7xl mx-auto px-4 sm:px-6 lg:px-8")
            [ React.el "div" (Some "flex justify-between items-center h-16")
                [ React.el "div" (Some "flex items-center gap-4")
                    [ Header.logo;
                      React.el "span" (Some "text-slate-300") [React.text "/"];
                      React.el "h1" (Some "text-lg font-medium text-slate-900")
                        [React.text "Executions"] ] ] ] ];
      React.el "main" (Some "max-w-7xl mx-auto px-4 sm:px-6 lg:px-8 py-8")
        [main q] ].

End Components.

End ExecutionsPage.

(* ===================================================================== *)
(** * The tests page ([TestsPage], [TestCard])                            *)
(* ===================================================================== *)

Module TestsPage.

(** [a.slice(start, end)] on an array, for non-negative indices. *)
Definition slice {A} (a : list A) (start end_ : nat) : list A :=
  take (end_ - start) (drop start a).

Section Components.

Variable cn : list (option string) → string.
Variable formatRelativeTime : string → string.

Definition TestCard (test : TestCase.t) : React.node :=
  Card.Card cn (Some "hover:shadow-md transition-shadow")
    [ Card.CardContent cn (Some "flex items-center justify-between py-4")
        [ React.el "div" (Some "flex-1 min-w-0")
            [ React.el "div" (Some "flex items-center gap-3 mb-1")
                (React.component "Link"
                   [("href", React.PString ("/tests/" ++ TestCase.id test));
                    ("className",
                     React.PString
                       "font-medium text-slate-900 hover:text-primary-600 transition truncate")]
                   [React.text (TestCase.name test)]
                 (* a status is a non-empty string, so it is truthy *)
                 :: React.and_object (TestCase.last_run_status test)
                      (λ status,
                         React.of_badge
                           (Badge.render_StatusBadge cn
                              {| Badge.status := status;
                                 Badge.sb_className := None |})));
              React.el "div"
                (Some "flex items-center gap-4 text-sm text-slate-500")
                ([ React.el "span" None
                     [ React.number (length (TestCase.steps test));
                       React.text " steps" ] ]
                 ++ React.and_bool
                      (bool_decide (0 < length (TestCase.tags test)))
                      (React.el "span" (Some "flex gap-1")
                         ((λ tag,
                             React.keyed tag
                               (React.el "span"
                                  (Some "px-1.5 py-0.5 bg-slate-100 rounded text-xs")
                                  [React.text tag]))
                            <$> slice (TestCase.tags test) 0 3))
                 ++ [ React.el "span" None
                        [ React.text "Updated ";
                          React.text
                            (formatRelativeTime (TestCase.updated_at test)) ] ])%list ];
          React.el "div" (Some "flex items-center gap-2 ml-4")
            [ React.component "Button"
                [("variant", React.PString "ghost");
                 ("size", React.PString "sm")]
                [Header.icon "Play" "w-4 h-4"; React.text "Run"];
              React.component "Button"
                [("variant", React.PString "ghost");
                 ("size", React.PString "sm")]
                [Header.icon "MoreVertical" "w-4 h-4"] ] ] ].

(** The test list of the page: the nested conditional under the search
    box. *)
Definition list_view (q : query_result (list TestCase.t)) : React.node :=
  if isLoading q then
    React.el "div" (Some "text-center py-12")
      [ React.el "div"
          (Some "animate-spin h-8 w-8 border-4 border-primary-600 border-t-transparent rounded-full mx-auto mb-4")
          [];
        React.el "p" (Some "text-slate-500") [React.text "Loading tests..."] ]
  else
    match error q with
    | Some _ =>
        Card.Card cn None
          [ Card.CardContent cn (Some "text-center py-12")
              [ React.el "p" (Some "text-red-600 mb-2")
                  [React.text "Failed to load tests"];
                React.el "p" (Some "text-slate-500 text-sm")
                  [React.text
                     "Make sure the backend is running at http://localhost:8000"] ] ]
    | None =>
        match data q with
        | Some (first :: rest) =>
            React.el "div" (Some "space-y-4")
              ((λ test, React.keyed (TestCase.id test) (TestCard test))
                 <$> (first :: rest))
        | _ =>
            Card.Card cn None
              [ Card.CardContent cn (Some "text-center py-12")
                  [ React.el "p" (Some "text-slate-900 font-medium mb-2")
                      [React.text "No tests yet"];
                    React.el "p" (Some "text-slate-500 text-sm mb-4")
                      [React.text "Create your first test to get started"];
                    React.component "Link"
                      [("href", React.PString "/tests/new")]
                      [ React.component "Button" []
                          [ Header.icon "Plus" "w-4 h-4";
                            React.text "Create Test" ] ] ] ]
        end
    end.

Definition TestsPage (q : query_result (list TestCase.t)) : React.node :=
  React.el "div" (Some "min-h-screen bg-slate-50")
    [ React.el "header" (Some "bg-white border-b sticky top-0 z-40")
        [ React.el "div" (Some "max-w-7xl mx-auto px-4 sm:px-6 lg:px-8")
            [ React.el "div" (Some "flex justify-between items-center h-16")
                [ React.el "div" (Some "flex items-center gap-4")
                    [ Header.logo;
                      React.el "span" (Some "text-slate-300") [React.text "/"];
                      React.el "h1" (Some "text-lg font-medium text-slate-900")
                        [React.text "Tests"] ];
                  React.component "Link"
                    [("href", React.PString "/tests/new")]
                    [ React.component "Button" []
                        [ Header.icon "Plus" "w-4 h-4";
                          React.text "New Test" ] ] ] ] ];
      React.el "main" (Some "max-w-7xl mx-auto px-4 sm:px-6 lg:px-8 py-8")
        [ React.el "div" (Some "mb-6 flex gap-4")
            [ React.el "div" (Some "flex-1 max-w-md")
                [ React.el "div" (Some "relative")
                    [ Header.icon "Search"
                        "absolute left-3 top-1/2 -translate-y-1/2 w-4 h-4 text-slate-400";
                      React.component "Input"
                        [("placeholder", React.PString "Search tests...");
                         ("className", React.PString "pl-10")]
                        [] ] ] ];
          list_view q ] ].

End Components.

End TestsPage.

(* ===================================================================== *)
(** * The "create new test" page as an event loop                         *)
(* ===================================================================== *)

Module NewTestPageUi.

Import NewTestPage.

(** The initial values of the [useState] cells. *)
Definition initial : state :=
  {| mode := natural; naturalLanguage := ""; generatedTest := None;
     testName := "" |}.

Definition setMode (m : mode_t) : handler unit :=
  λ st, (tt, {| mode := m; naturalLanguage := naturalLanguage st;
                generatedTest := generatedTest st;
                testName := testName st |}, []).

Definition setNaturalLanguage (v : string) : handler unit :=
  λ st, (tt, {| mode := mode st; naturalLanguage := v;
                generatedTest := generatedTest st;
                testName := testName st |}, []).

(** What can happen to the page: the user's input on the elements that
    carry a handler, and the two mutations settling successfully. *)
Inductive event : Type :=
  | ClickMode (m : mode_t)              (* the two mode buttons *)
  | ChangeDescription (value : string)  (* [Textarea] [onChange] *)
  | ClickGenerate                       (* [onClick={handleGenerate}] *)
  | ChangeTestName (value : string)     (* [Input] [onChange] *)
  | ClickSave                           (* [onClick={handleSave}] *)
  | Generated (data : GeneratedTestResponse.t) (* [generateMutation.onSuccess] *)
  | Saved (savedTest : TestCase.t).     (* [saveMutation.onSuccess] *)

(** What the page does to the outside: a request through a mutation, or a
    navigation with [router.push]. *)
Inductive effect : Type :=
  | Request (call : api_call)
  | Push (path : string).

Definition step (st : state) (ev : event) : state * list effect :=
  let handled (h : handler unit) := ((h st).1.2, Request <$> (h st).2) in
  match ev with
  | ClickMode m => handled (setMode m)
  | ChangeDescription value => handled (setNaturalLanguage value)
  | ClickGenerate => handled handleGenerate
  | ChangeTestName value => handled (setTestName value)
  | ClickSave => handled handleSave
  | Generated data => handled (onSuccess data)
  | Saved savedTest => (st, [Push ("/tests/" ++ TestCase.id savedTest)])
  end.

(** The state and the effects after a sequence of events, from a state. *)
Definition run_from (st : state) (events : list event) : state * list effect :=
  foldl (λ acc ev, let '(st', new) := step acc.1 ev in (st', (acc.2 ++ new)%list))
        (st, []) events.

Definition run (events : list event) : state * list effect :=
  run_from initial events.

(** The test case a response makes the page show, if any. *)
Definition generated_by (ev : event) : option TestCaseCreate.t :=
  match ev with
  | Generated data =>
      if GeneratedTestResponse.success data
      then GeneratedTestResponse.test_case data
      else None
  | _ => None
  end.

(** The value an event writes into the test-name cell, if any. *)
Definition name_written_by (ev : event) : option string :=
  match ev with
  | ChangeTestName value => Some value
  | _ => TestCaseCreate.name <$> generated_by ev
  end.

Section Buttons.

(** [isPending] of the two mutations. *)
Variables (savePending generatePending : bool).

(** The header's [{generatedTest && (<Button ...>)}]. *)
Definition save_button (st : state) : list React.node :=
  React.and_object (generatedTest st)
    (λ _, React.component "Button"
            [("onClick", React.PHandler "handleSave");
             ("loading", React.PBool savePending)]
            [Header.icon "Save" "w-4 h-4"; React.text "Save Test"]).

Definition generate_button (st : state) : React.node :=
  React.component "Button"
    [("onClick", React.PHandler "handleGenerate");
     ("loading", React.PBool generatePending);
     ("disabled", React.PBool (negb (Js.trim_truthy (naturalLanguage st))))]
    [Header.icon "Wand2" "w-4 h-4"; React.text "Generate Test"].

End Buttons.

(** Strings of 7-bit characters, on which the page's string operations
    are modelled exactly. *)
Definition is_ascii (s : string) : Prop :=
  Forall (λ c, nat_of_ascii c < 128) (String.list_ascii_of_string s).

(** Some character of [s] is not white space. *)
Definition has_visible_character (s : string) : Prop :=
  Exists (λ c, Js.is_space c = false) (String.list_ascii_of_string s).

(** A test case that some successful response of the generator carried. *)
Definition was_generated (events : list event)
    (generated : TestCaseCreate.t) : Prop :=
  ∃ data,
    Generated data ∈ events
    ∧ GeneratedTestResponse.success data = true
    ∧ GeneratedTestResponse.test_case data = Some generated.

Definition typed : event → option string :=
  λ ev, match ev with ChangeDescription value => Some value | _ => None end.

(** A generated test and a name for the samples. *)
Definition sample_response : GeneratedTestResponse.t :=
  {| GeneratedTestResponse.success := true;
     GeneratedTestResponse.test_case := Some Sample.login_test;
     GeneratedTestResponse.error := None;
     GeneratedTestResponse.tokens_used := 812;
     GeneratedTestResponse.model_used := "model-1" |}.

Definition sample_session : list event :=
  [ ChangeDescription "log in and see the dashboard";
    ClickGenerate;
    Generated sample_response;
    ClickMode manual;
    ChangeTestName "login works";
    ClickSave ].

End NewTestPageUi.

(* ===================================================================== *)
(** * Properties of the declarations                                      *)
(* ===================================================================== *)

Lemma ExecutionStatus_of_to_string (s : ExecutionStatus.t) :
  ExecutionStatus.of_string (ExecutionStatus.to_string s) = Some s.
Proof. by destruct s. Qed.

Lemma ExecutionStatus_of_string_Some (str : string) (s : ExecutionStatus.t) :
  ExecutionStatus.of_string str = Some s → ExecutionStatus.to_string s = str.
Proof.
  unfold ExecutionStatus.of_string. intros H.
  destruct (list_find _ _) as [[i m]|] eqn:Hfind; simpl in H; simplify_eq.
  by apply list_find_Some in Hfind as (_ & ? & _).
Qed.

Lemma TestStepType_of_to_string (a : TestStepType.t) :
  TestStepType.of_string (TestStepType.to_string a) = Some a.
Proof. by destruct a. Qed.

Lemma TestStepType_of_string_Some (str : string) (a : TestStepType.t) :
  TestStepType.of_string str = Some a → TestStepType.to_string a = str.
Proof.
  unfold TestStepType.of_string. intros H.
  destruct (list_find _ _) as [[i m]|] eqn:Hfind; simpl in H; simplify_eq.
  by apply list_find_Some in Hfind as (_ & ? & _).
Qed.

Lemma ExecutionStatus_all_complete (s : ExecutionStatus.t) :
  s ∈ ExecutionStatus.all.
Proof. destruct s; unfold ExecutionStatus.all; set_solver. Qed.

Lemma TestStepType_all_complete (a : TestStepType.t) : a ∈ TestStepType.all.
Proof. destruct a; unfold TestStepType.all; set_solver. Qed.

(** C5. [ExecutionStatus] has exactly the six members pending, running,
    passed, failed, skipped and error: they are pairwise different, every
    value of the type is one of them, and a string is admitted at the type
    iff it spells one of them.  The [status] member of a [StepResult] and
    the [status] member of a [TestExecution] are both declared at this one
    type, so each of them is always one of the six. *)
Theorem ExecutionStatus_six_values :
  Ts.ExecutionStatus_decl
    = Ts.TLiterals (ExecutionStatus.to_string <$> ExecutionStatus.all)
  ∧ ExecutionStatus.to_string <$> ExecutionStatus.all
    = ["pending"; "running"; "passed"; "failed"; "skipped"; "error"]
  ∧ NoDup ExecutionStatus.all
  ∧ length ExecutionStatus.all = 6
  ∧ (∀ s : ExecutionStatus.t, s ∈ ExecutionStatus.all)
  ∧ (∀ str s, ExecutionStatus.of_string str = Some s
              ↔ ExecutionStatus.to_string s = str)
  ∧ (∀ str, is_Some (ExecutionStatus.of_string str)
            ↔ str ∈ ["pending"; "running"; "passed"; "failed"; "skipped";
                     "error"])
  ∧ Ts.lookup_field "status" Ts.StepResult_decl
    = Some (Ts.required "status" (Ts.TRef "ExecutionStatus"))
  ∧ Ts.lookup_field "status" Ts.TestExecution_decl
    = Some (Ts.required "status" (Ts.TRef "ExecutionStatus"))
  ∧ (∀ (r : StepResult.t) (e : TestExecution.t),
       StepResult.status r ∈ ExecutionStatus.all
       ∧ TestExecution.status e ∈ ExecutionStatus.all).
Proof.
  split_and!; try done.
  - by apply (bool_decide_unpack _).
  - apply ExecutionStatus_all_complete.
  - intros str s. split.
    + apply ExecutionStatus_of_string_Some.
    + intros <-. apply ExecutionStatus_of_to_string.
  - intros str. split.
    + intros [s Hs]. apply ExecutionStatus_of_string_Some in Hs as <-.
      destruct s; set_solver.
    + rewrite !elem_of_cons, elem_of_nil.
      intros [->|[->|[->|[->|[->|[->|[]]]]]]]; by eexists.
  - intros r e. split; apply ExecutionStatus_all_complete.
Qed.

(** C6. The [action] of a [TestStep] is declared at [TestStepType], whose
    members are exactly the fifteen step kinds navigate, click, fill,
    type, select, check, uncheck, hover, wait, assert_text,
    assert_visible, assert_hidden, assert_value, press_key and screenshot:
    they are pairwise different, every action is one of them, and no other
    string is admitted as an action. *)
Theorem TestStepType_fifteen_kinds :
  Ts.TestStepType_decl
    = Ts.TLiterals (TestStepType.to_string <$> TestStepType.all)
  ∧ TestStepType.to_string <$> TestStepType.all
    = ["navigate"; "click"; "fill"; "type"; "select"; "check"; "uncheck";
       "hover"; "wait"; "assert_text"; "assert_visible"; "assert_hidden";
       "assert_value"; "press_key"; "screenshot"]
  ∧ NoDup TestStepType.all
  ∧ length TestStepType.all = 15
  ∧ (∀ a : TestStepType.t, a ∈ TestStepType.all)
  ∧ (∀ str a, TestStepType.of_string str = Some a
              ↔ TestStepType.to_string a = str)
  ∧ (∀ str, is_Some (TestStepType.of_string str)
            ↔ str ∈ TestStepType.to_string <$> TestStepType.all)
  ∧ Ts.lookup_field "action" Ts.TestStep_decl
    = Some (Ts.required "action" (Ts.TRef "TestStepType"))
  ∧ (∀ step : TestStep.t, TestStep.action step ∈ TestStepType.all).
Proof.
  split_and!; try done.
  - by apply (bool_decide_unpack _).
  - apply TestStepType_all_complete.
  - intros str a. split.
    + apply TestStepType_of_string_Some.
    + intros <-. apply TestStepType_of_to_string.
  - intros str. split.
    + intros [a Ha]. apply TestStepType_of_string_Some in Ha as <-.
      apply list_elem_of_fmap_2, TestStepType_all_complete.
    + intros (a & -> & _)%list_elem_of_fmap.
      rewrite TestStepType_of_to_string. by eexists.
  - intros step. apply TestStepType_all_complete.
Qed.

(** The members [TestCaseCreate] shares with [TestCase] are [TestCase]'s
    members without the identity and audit ones. *)
Lemma TestCaseCreate_field_names :
  Ts.field_names Ts.TestCaseCreate_decl
  = Ts.field_names (Ts.without Ts.identity_audit_fields Ts.TestCase_decl).
Proof. reflexivity. Qed.

(** C4, as stated, fails: [setup_steps] is a member of [TestCaseCreate]
    for which no member of [TestCase] has the same name, type and
    optional/required status ([TestCase] requires it, [TestCaseCreate]
    lets it be omitted). *)
Lemma TestCaseCreate_setup_steps_optionality :
  ¬ (∀ f, f ∈ Ts.TestCaseCreate_decl →
       ∃ g, g ∈ Ts.TestCase_decl
            ∧ Ts.fname g = Ts.fname f
            ∧ Ts.ftype g = Ts.ftype f
            ∧ Ts.optional g = Ts.optional f).
Proof.
  intros H.
  destruct (H (Ts.opt "setup_steps" (Ts.TArray (Ts.TRef "TestStep"))))
    as (g & Hg & Hname & _ & Hopt).
  - unfold Ts.TestCaseCreate_decl. rewrite !elem_of_cons. tauto.
  - unfold Ts.TestCase_decl in Hg.
    repeat (apply elem_of_cons in Hg as [->|Hg]; [by vm_compute in Hopt|]).
    by apply elem_of_nil in Hg.
Qed.

(** C4, amended.  The members of [TestCaseCreate] are the members of
    [TestCase] minus id, created_at, updated_at, last_run_status and
    last_run_at, member by member with the same name and the same type;
    name, description, tags and steps are required in both, while
    setup_steps and teardown_steps are required in [TestCase] and optional
    in [TestCaseCreate]. *)
Theorem TestCaseCreate_strips_TestCase :
  let stripped := Ts.without Ts.identity_audit_fields Ts.TestCase_decl in
  (λ f, (Ts.fname f, Ts.ftype f)) <$> Ts.TestCaseCreate_decl
    = (λ f, (Ts.fname f, Ts.ftype f)) <$> stripped
  ∧ Ts.field_names Ts.TestCase_decl
    ≡ₚ (Ts.identity_audit_fields ++ Ts.field_names Ts.TestCaseCreate_decl)%list
  ∧ (λ f, (Ts.fname f, Ts.optional f)) <$> stripped
    = [("name", false); ("description", false); ("tags", false);
       ("steps", false); ("setup_steps", false); ("teardown_steps", false)]
  ∧ (λ f, (Ts.fname f, Ts.optional f)) <$> Ts.TestCaseCreate_decl
    = [("name", false); ("description", false); ("tags", false);
       ("steps", false); ("setup_steps", true); ("teardown_steps", true)].
Proof.
  split_and!; try reflexivity.
  apply (bool_decide_unpack _). by vm_compute.
Qed.

(* ===================================================================== *)
(** * Properties of the components and pages                              *)
(* ===================================================================== *)

Lemma substring_all (s : string) : String.substring 0 (String.length s) s = s.
Proof. induction s as [|c s IH]; simpl; by rewrite ?IH. Qed.

Lemma slice_tail (c : ascii) (s : string) : Js.slice (String c s) 1 = s.
Proof.
  unfold Js.slice. simpl. rewrite Nat.sub_0_r. apply substring_all.
Qed.

(** The label expression of [StatusBadge] uppercases the first character
    and keeps the rest, on every string. *)
Lemma label_first_upper (s : string) :
  Js.toUpperCase (Js.charAt s 0) ++ Js.slice s 1 = Badge.first_upper s.
Proof.
  destruct s as [|c s]; [done|].
  unfold Js.charAt. simpl String.get. simpl Js.toUpperCase.
  by rewrite slice_tail.
Qed.

(** C9. [StatusBadge] renders a badge for each of the six statuses: the
    variant is success for passed, error for failed and for error, info
    for running, warning for pending and default for skipped; the label is
    the status string with its first character uppercased; the class name
    is passed through. *)
Theorem StatusBadge_total (cn : list (option string) → string)
    (status : ExecutionStatus.t) (className : option string) :
  let props := {| Badge.status := status; Badge.sb_className := className |} in
  let badge := Badge.StatusBadge props in
  Badge.variant badge
    = Some match status with
           | ExecutionStatus.passed => Badge.Variant.success
           | ExecutionStatus.failed => Badge.Variant.error
           | ExecutionStatus.error => Badge.Variant.error
           | ExecutionStatus.running => Badge.Variant.info
           | ExecutionStatus.pending => Badge.Variant.warning
           | ExecutionStatus.skipped => Badge.Variant.default
           end
  ∧ Badge.children badge
    = Badge.first_upper (ExecutionStatus.to_string status)
  ∧ Badge.children badge
    = match status with
      | ExecutionStatus.pending => "Pending"
      | ExecutionStatus.running => "Running"
      | ExecutionStatus.passed => "Passed"
      | ExecutionStatus.failed => "Failed"
      | ExecutionStatus.skipped => "Skipped"
      | ExecutionStatus.error => "Error"
      end
  ∧ Badge.className badge = className
  ∧ ∃ variant,
      Badge.variant badge = Some variant
      ∧ Badge.render_StatusBadge cn props
        = Badge.span
            (cn [Some Badge.base_class; Some (Badge.variantStyles variant);
                 className])
            (Badge.children badge).
Proof.
  intros props badge. split_and!.
  - by destruct status.
  - apply label_first_upper.
  - by destruct status.
  - done.
  - destruct status; by eexists.
Qed.

(** Nothing is requested for a description that is blank. *)
Lemma handleGenerate_blank (st : NewTestPage.state) :
  Js.trim_truthy (NewTestPage.naturalLanguage st) = false →
  NewTestPage.requests NewTestPage.handleGenerate st = [].
Proof.
  intros H. unfold NewTestPage.requests, NewTestPage.handleGenerate.
  unfold mbind, NewTestPage.handler_bind, NewTestPage.read.
  cbv beta iota zeta. by rewrite H.
Qed.

(** A successful generation shows the generated test under its own name;
    a failed one changes nothing. *)
Lemma onSuccess_state (data : GeneratedTestResponse.t)
    (st : NewTestPage.state) :
  let st' := NewTestPage.final_state (NewTestPage.onSuccess data) st in
  match GeneratedTestResponse.success data,
        GeneratedTestResponse.test_case data with
  | true, Some test_case =>
      NewTestPage.generatedTest st' = Some test_case
      ∧ NewTestPage.testName st' = TestCaseCreate.name test_case
  | _, _ => st' = st
  end.
Proof.
  unfold NewTestPage.final_state, NewTestPage.onSuccess.
  destruct data as [[] [test_case|] ? ? ?]; simpl; try done.
Qed.

(** X5. Saving right after a successful generation, without editing the
    name, sends the generated test exactly as the generator returned it,
    name included. *)
Lemma save_after_generate (data : GeneratedTestResponse.t)
    (test_case : TestCaseCreate.t) (st : NewTestPage.state) :
  GeneratedTestResponse.success data = true →
  GeneratedTestResponse.test_case data = Some test_case →
  NewTestPage.requests NewTestPage.handleSave
    (NewTestPage.final_state (NewTestPage.onSuccess data) st)
  = [NewTestPage.createTest test_case].
Proof.
  intros Hok Hcase.
  unfold NewTestPage.final_state, NewTestPage.onSuccess.
  rewrite Hok, Hcase. destruct test_case as [name ? ? ? ? ?].
  unfold NewTestPage.requests, NewTestPage.handleSave,
    NewTestPage.spread_with_name, Js.or_else. simpl.
  by case_bool_decide; simplify_eq.
Qed.

(** [handleSave] leaves the state cells alone. *)
Lemma handleSave_keeps_state (st : NewTestPage.state) :
  NewTestPage.final_state NewTestPage.handleSave st = st.
Proof.
  unfold NewTestPage.final_state, NewTestPage.handleSave.
  by destruct st as [? ? [g|] ?].
Qed.

(** C10. When a test has been generated, [handleSave] sends exactly one
    create-test request; its object has the description, tags, steps,
    setup_steps and teardown_steps of the generated test, and its name is
    the entered test name when that is non-empty and the generated test's
    name otherwise.  When no test has been generated it sends nothing. *)
Theorem handleSave_request (st : NewTestPage.state) :
  match NewTestPage.generatedTest st with
  | None => NewTestPage.requests NewTestPage.handleSave st = []
  | Some generated =>
      ∃ sent,
        NewTestPage.requests NewTestPage.handleSave st
          = [NewTestPage.createTest sent]
        ∧ TestCaseCreate.name sent
          = (if bool_decide (NewTestPage.testName st = "")
             then TestCaseCreate.name generated
             else NewTestPage.testName st)
        ∧ TestCaseCreate.description sent = TestCaseCreate.description generated
        ∧ TestCaseCreate.tags sent = TestCaseCreate.tags generated
        ∧ TestCaseCreate.steps sent = TestCaseCreate.steps generated
        ∧ TestCaseCreate.setup_steps sent
          = TestCaseCreate.setup_steps generated
        ∧ TestCaseCreate.teardown_steps sent
          = TestCaseCreate.teardown_steps generated
  end.
Proof.
  destruct st as [m nl [g|] tn]; [|done]. simpl.
  eexists. split; [reflexivity|]. by split_and!.
Qed.

(* ===================================================================== *)
(** * Properties of the aggregation                                       *)
(* ===================================================================== *)

Section StatusDerivation.

Import ExecutionStatus.

Lemma if_bool_decide_ext {A} (P Q : Prop) `{Decision P, Decision Q} (x y : A) :
  (P ↔ Q) →
  (if bool_decide P then x else y) = (if bool_decide Q then x else y).
Proof. intros H1. by rewrite (bool_decide_ext P Q H1). Qed.

(** The order in which two statuses are absorbed does not matter. *)
Lemma absorb_swap (v x y : ExecutionStatus.t) :
  Engine.absorb (Engine.absorb v x) y = Engine.absorb (Engine.absorb v y) x.
Proof. by destruct v, x, y. Qed.

Lemma foldl_absorb_perm (l k : list ExecutionStatus.t) :
  l ≡ₚ k → ∀ v, foldl Engine.absorb v l = foldl Engine.absorb v k.
Proof.
  induction 1 as [|x l k _ IH|x y l|l k m _ IH1 _ IH2]; intros v; simpl.
  - done.
  - apply IH.
  - by rewrite absorb_swap.
  - by rewrite IH1.
Qed.

Lemma foldl_absorb_failed (l : list ExecutionStatus.t) :
  foldl Engine.absorb failed l = failed.
Proof. induction l as [|s l IH]; [done|]. simpl. by destruct s. Qed.

Lemma foldl_absorb_passed (l : list ExecutionStatus.t) :
  foldl Engine.absorb passed l
  = if bool_decide (failed ∈ l) then failed else passed.
Proof.
  induction l as [|s l IH]; [done|].
  change (foldl Engine.absorb passed (s :: l))
    with (foldl Engine.absorb (Engine.absorb passed s) l).
  destruct (decide (s = failed)) as [->|Hs].
  - change (Engine.absorb passed failed) with failed.
    rewrite foldl_absorb_failed, bool_decide_eq_true_2; [done|left].
  - replace (Engine.absorb passed s) with passed by by destruct s.
    rewrite IH. apply if_bool_decide_ext.
    rewrite elem_of_cons. intuition congruence.
Qed.

Lemma foldl_absorb_skipped (l : list ExecutionStatus.t) :
  foldl Engine.absorb skipped l
  = if bool_decide (failed ∈ l) then failed
    else if bool_decide (Forall (λ s, s = skipped) l) then skipped
    else passed.
Proof.
  induction l as [|s l IH]; [done|].
  change (foldl Engine.absorb skipped (s :: l))
    with (foldl Engine.absorb (Engine.absorb skipped s) l).
  destruct (decide (s = skipped)) as [->|Hskip].
  - change (Engine.absorb skipped skipped) with skipped. rewrite IH.
    rewrite (if_bool_decide_ext (failed ∈ skipped :: l) (failed ∈ l))
      by (rewrite elem_of_cons; intuition congruence).
    rewrite (if_bool_decide_ext (Forall (λ s, s = skipped) (skipped :: l))
                                (Forall (λ s, s = skipped) l))
      by (rewrite Forall_cons; intuition congruence).
    done.
  - rewrite (bool_decide_eq_false_2 (Forall _ (s :: l)))
      by (rewrite Forall_cons; intuition congruence).
    destruct (decide (s = failed)) as [->|Hfail].
    + change (Engine.absorb skipped failed) with failed.
      rewrite foldl_absorb_failed, bool_decide_eq_true_2; [done|left].
    + replace (Engine.absorb skipped s) with passed by by destruct s.
      rewrite foldl_absorb_passed. apply if_bool_decide_ext.
      rewrite elem_of_cons. intuition congruence.
Qed.

Lemma elements_list_to_set_disj (l : list ExecutionStatus.t) :
  elements (list_to_set_disj l : gmultiset ExecutionStatus.t) ≡ₚ l.
Proof.
  induction l as [|s l IH]; simpl.
  - by rewrite gmultiset_elements_empty.
  - rewrite gmultiset_elements_disj_union, gmultiset_elements_singleton.
    simpl. by rewrite IH.
Qed.

Lemma same_multiset_perm (l k : list ExecutionStatus.t) :
  list_to_set_disj l =@{gmultiset ExecutionStatus.t} list_to_set_disj k →
  l ≡ₚ k.
Proof.
  intros H. rewrite <-(elements_list_to_set_disj l), H.
  apply elements_list_to_set_disj.
Qed.

Lemma derive_status_rule (fault : bool) (l : list ExecutionStatus.t) :
  Engine.derive_status fault l = Engine.terminal_rule fault (list_to_set_disj l).
Proof.
  unfold Engine.derive_status, Engine.terminal_rule.
  destruct fault; [done|]. rewrite foldl_absorb_skipped.
  rewrite (if_bool_decide_ext _ _ _ _ (elem_of_list_to_set_disj failed l)).
  rewrite (if_bool_decide_ext
             (Forall (λ s, s = skipped) (elements (list_to_set_disj l)))
             (Forall (λ s, s = skipped) l)); [done|].
  by rewrite elements_list_to_set_disj.
Qed.

Lemma derive_status_elements (fault : bool)
    (statuses : gmultiset ExecutionStatus.t) :
  Engine.derive_status fault (elements statuses)
  = Engine.terminal_rule fault statuses.
Proof.
  unfold Engine.derive_status, Engine.terminal_rule.
  destruct fault; [done|]. rewrite foldl_absorb_skipped.
  by rewrite (if_bool_decide_ext _ _ _ _
                (gmultiset_elem_of_elements failed statuses)).
Qed.

Lemma derive_status_perm (fault : bool) (l k : list ExecutionStatus.t) :
  l ≡ₚ k → Engine.derive_status fault l = Engine.derive_status fault k.
Proof.
  intros H. unfold Engine.derive_status. destruct fault; [done|].
  by apply foldl_absorb_perm.
Qed.

(** The derivation by itself is a function of the harness-fault flag and
    of the multiset of step statuses: it is error if a harness-level fault
    occurred, else failed if some step status is failed, else skipped if
    every step status is skipped, else passed; it is the same for any two
    sequences of step statuses that are permutations of each other, or
    that have the same multiset. *)
Theorem derive_status_precedence (harness_fault : bool)
    (statuses : list ExecutionStatus.t) :
  Engine.derive_status harness_fault statuses
    = (if harness_fault then error
       else if bool_decide (failed ∈ statuses) then failed
       else if bool_decide (Forall (λ s, s = skipped) statuses) then skipped
       else passed)
  ∧ Engine.derive_status harness_fault statuses
    = Engine.terminal_rule harness_fault (list_to_set_disj statuses)
  ∧ (∀ permuted, permuted ≡ₚ statuses →
       Engine.derive_status harness_fault permuted
       = Engine.derive_status harness_fault statuses)
  ∧ (∀ other,
       list_to_set_disj other
         =@{gmultiset ExecutionStatus.t} list_to_set_disj statuses →
       Engine.derive_status harness_fault other
       = Engine.derive_status harness_fault statuses)
  ∧ (∀ multiset : gmultiset ExecutionStatus.t,
       Engine.derive_status harness_fault (elements multiset)
       = Engine.terminal_rule harness_fault multiset).
Proof.
  split_and!; [..|apply derive_status_elements].
  - unfold Engine.derive_status. destruct harness_fault; [done|].
    apply foldl_absorb_skipped.
  - apply derive_status_rule.
  - intros permuted H. by apply derive_status_perm.
  - intros other H. by apply derive_status_perm, same_multiset_perm.
Qed.

End StatusDerivation.

Section Aggregation.

Import ExecutionStatus.

Implicit Types (e : TestExecution.t) (r : StepResult.t) (ev : Engine.event).

Lemma conclusion_status_concluded (c : Engine.conclusion) :
  Engine.concluded (Engine.conclusion_status c).
Proof. unfold Engine.concluded. destruct c; simpl; set_solver. Qed.

Lemma count_status_record (s : ExecutionStatus.t) e r :
  Engine.count_status s (Engine.record e r)
  = Engine.bump (StepResult.status r) s (Engine.count_status s e).
Proof.
  unfold Engine.count_status, Engine.bump. simpl.
  rewrite filter_app, length_app, filter_cons, filter_nil.
  case_decide; case_bool_decide; simpl; try done; lia.
Qed.

Lemma start_consistent (execution_id test_name started_at : string) :
  Engine.counts_consistent (Engine.start execution_id test_name started_at).
Proof. by split. Qed.

Lemma record_consistent e r :
  Engine.concluded (StepResult.status r) →
  Engine.counts_consistent e → Engine.counts_consistent (Engine.record e r).
Proof.
  intros Hr [Htotal Hpassed Hfailed Hconcluded]. split.
  - simpl. rewrite length_app, Htotal. simpl. lia.
  - rewrite count_status_record. simpl. by rewrite Hpassed.
  - rewrite count_status_record. simpl. by rewrite Hfailed.
  - unfold Engine.step_statuses. simpl. rewrite fmap_app.
    apply Forall_app. split; [done|]. by apply Forall_singleton.
Qed.

Lemma complete_consistent e (at_ : string) (d : nat)
    (fault url : option string) :
  Engine.counts_consistent e →
  Engine.counts_consistent (Engine.complete e at_ d fault url).
Proof. by intros []. Qed.

Lemma apply_consistent e ev :
  Engine.counts_consistent e → Engine.counts_consistent (Engine.apply e ev).
Proof.
  intros He. unfold Engine.apply.
  destruct (TestExecution.completed_at e); [done|].
  destruct ev as [step c d shot|at_ d fault url].
  - apply record_consistent; [|done]. apply conclusion_status_concluded.
  - by apply complete_consistent.
Qed.

(** The counters of an execution stay consistent along every run. *)
Lemma run_consistent (execution_id test_name started_at : string)
    (events : list Engine.event) :
  Engine.counts_consistent
    (Engine.run execution_id test_name started_at events).
Proof.
  unfold Engine.run.
  generalize (start_consistent execution_id test_name started_at).
  generalize (Engine.start execution_id test_name started_at).
  induction events as [|ev events IH]; intros e He; [done|].
  simpl. by apply IH, apply_consistent.
Qed.

(** Step results that have all concluded split into the four concluded
    statuses. *)
Lemma concluded_partition (results : list StepResult.t) :
  Forall Engine.concluded (StepResult.status <$> results) →
  length results
  = length (filter (λ r, StepResult.status r = passed) results)
    + length (filter (λ r, StepResult.status r = failed) results)
    + length (filter (λ r, StepResult.status r = skipped) results)
    + length (filter (λ r, StepResult.status r = error) results).
Proof.
  induction results as [|r results IH]; [done|].
  rewrite fmap_cons, Forall_cons_iff. intros [Hr Hrest].
  rewrite !filter_cons. specialize (IH Hrest).
  unfold Engine.concluded in Hr.
  rewrite !elem_of_cons, elem_of_nil in Hr.
  destruct Hr as [Hr|[Hr|[Hr|[Hr|[]]]]]; rewrite Hr;
    repeat case_decide; try done; simpl; lia.
Qed.

(** C2. Once [completed_at] is set, [total_steps] is the length of
    [step_results], and it is the sum of [passed_steps], [failed_steps]
    and the numbers of skipped and of error step results. *)
Theorem completed_execution_counts
    (execution_id test_name started_at : string)
    (events : list Engine.event) :
  let e := Engine.run execution_id test_name started_at events in
  is_Some (TestExecution.completed_at e) →
  TestExecution.total_steps e = length (TestExecution.step_results e)
  ∧ TestExecution.total_steps e
    = TestExecution.passed_steps e + TestExecution.failed_steps e
      + Engine.count_status skipped e + Engine.count_status error e.
Proof.
  intros e _.
  destruct (run_consistent execution_id test_name started_at events)
    as [Htotal Hpassed Hfailed Hconcluded].
  fold e in Htotal, Hpassed, Hfailed, Hconcluded.
  split; [done|].
  rewrite Htotal, Hpassed, Hfailed.
  by apply concluded_partition.
Qed.

Lemma record_step_message (step : TestStep.t) (c : Engine.conclusion)
    (d : nat) (shot : bool) :
  Engine.message_iff_failure (Engine.record_step step c d shot).
Proof.
  unfold Engine.message_iff_failure. destruct c; simpl; split;
    first [by eauto | intros [? [=]] | intros [[=]|[=]]].
Qed.

Lemma apply_messages e ev :
  Forall Engine.message_iff_failure (TestExecution.step_results e) →
  Forall Engine.message_iff_failure
    (TestExecution.step_results (Engine.apply e ev)).
Proof.
  intros He. unfold Engine.apply.
  destruct (TestExecution.completed_at e); [done|].
  destruct ev as [step c d shot|at_ d fault url]; [|done].
  simpl. apply Forall_app. split; [done|].
  apply Forall_singleton, record_step_message.
Qed.

Lemma run_messages (execution_id test_name started_at : string)
    (events : list Engine.event) :
  Forall Engine.message_iff_failure
    (TestExecution.step_results
       (Engine.run execution_id test_name started_at events)).
Proof.
  unfold Engine.run.
  assert (Forall Engine.message_iff_failure
            (TestExecution.step_results
               (Engine.start execution_id test_name started_at)))
    as Hstart by apply Forall_nil_2.
  revert Hstart.
  generalize (Engine.start execution_id test_name started_at).
  induction events as [|ev events IH]; intros e He; [done|].
  simpl. by apply IH, apply_messages.
Qed.

(** C3. A step result has an [error_message] if and only if its status is
    failed or error. *)
Theorem step_result_error_message
    (execution_id test_name started_at : string)
    (events : list Engine.event) (r : StepResult.t) :
  r ∈ TestExecution.step_results
        (Engine.run execution_id test_name started_at events) →
  is_Some (StepResult.error_message r)
  ↔ StepResult.status r = failed ∨ StepResult.status r = error.
Proof.
  intros Hr.
  pose proof (run_messages execution_id test_name started_at events) as H.
  rewrite Forall_forall in H. by apply (H r).
Qed.

End Aggregation.

Section ExecutionStatusFacts.

Import ExecutionStatus.

Implicit Types (e : TestExecution.t) (ev : Engine.event)
  (steps : list (TestStep.t * Engine.conclusion * nat * bool)).

Lemma foldl_apply_completed e (events : list Engine.event) :
  is_Some (TestExecution.completed_at e) → foldl Engine.apply e events = e.
Proof.
  intros [at_ Hdone]. induction events as [|ev events IH]; [done|].
  simpl. unfold Engine.apply at 2. by rewrite Hdone.
Qed.

(** Reported steps are recorded one by one, in their order. *)
Lemma foldl_apply_steps e steps :
  TestExecution.completed_at e = None →
  TestExecution.completed_at
    (foldl Engine.apply e (Engine.concluded_step <$> steps)) = None
  ∧ TestExecution.step_results
      (foldl Engine.apply e (Engine.concluded_step <$> steps))
    = (TestExecution.step_results e
       ++ ((λ r, Engine.record_step r.1.1.1 r.1.1.2 r.1.2 r.2) <$> steps))%list.
Proof.
  revert e. induction steps as [|r steps IH]; intros e He.
  - by rewrite app_nil_r.
  - rewrite fmap_cons. simpl foldl.
    replace (Engine.apply e (Engine.concluded_step r))
      with (Engine.record e (Engine.record_step r.1.1.1 r.1.1.2 r.1.2 r.2))
      by (unfold Engine.apply; by rewrite He).
    destruct (IH (Engine.record e
                    (Engine.record_step r.1.1.1 r.1.1.2 r.1.2 r.2)) eq_refl)
      as [Hopen Hresults].
    split; [done|]. rewrite Hresults. simpl. by rewrite <-app_assoc.
Qed.

(** A run that completes is the completion of its steps; what is reported
    after the completion changes nothing. *)
Lemma run_completed (execution_id test_name started_at : string) steps
    (completed_at : string) (duration_ms : nat)
    (harness_fault page_url : option string) (later : list Engine.event) :
  Engine.run execution_id test_name started_at
    ((Engine.concluded_step <$> steps)
     ++ Engine.Completed completed_at duration_ms harness_fault page_url
        :: later)
  = Engine.complete
      (Engine.run execution_id test_name started_at
         (Engine.concluded_step <$> steps))
      completed_at duration_ms harness_fault page_url.
Proof.
  unfold Engine.run. rewrite foldl_app. simpl foldl.
  destruct (foldl_apply_steps
              (Engine.start execution_id test_name started_at) steps eq_refl)
    as [Hopen _].
  unfold Engine.apply at 2. rewrite Hopen.
  apply foldl_apply_completed. by eexists.
Qed.

Lemma run_step_statuses (execution_id test_name started_at : string) steps :
  StepResult.status
    <$> TestExecution.step_results
          (Engine.run execution_id test_name started_at
             (Engine.concluded_step <$> steps))
  = Engine.reported_status <$> steps.
Proof.
  unfold Engine.run.
  destruct (foldl_apply_steps
              (Engine.start execution_id test_name started_at) steps eq_refl)
    as [_ ->].
  simpl. rewrite <-list_fmap_compose. by apply list_fmap_ext.
Qed.

(** The status of a completed execution is derived from the fault and
    from the statuses of its own step results, which are the statuses the
    steps were reported with. *)
Lemma completed_run_status (execution_id test_name started_at : string) steps
    (completed_at : string) (duration_ms : nat)
    (harness_fault page_url : option string) (later : list Engine.event) :
  let e :=
    Engine.run execution_id test_name started_at
      ((Engine.concluded_step <$> steps)
       ++ Engine.Completed completed_at duration_ms harness_fault page_url
          :: later) in
  StepResult.status <$> TestExecution.step_results e
  = Engine.reported_status <$> steps
  ∧ TestExecution.status e
    = Engine.derive_status (bool_decide (is_Some harness_fault))
        (Engine.reported_status <$> steps).
Proof.
  intros e. unfold e. rewrite run_completed. simpl.
  unfold Engine.step_statuses. by rewrite run_step_statuses.
Qed.

(** C1. The overall status of a completed execution is a function of the
    harness-fault flag and of the multiset of the statuses of its step
    results: it is error if a harness-level fault occurred, else failed if
    some step result is failed, else skipped if every step result is
    skipped, else passed.  Reporting the same steps in another order gives
    the same status, and so does any other run with the same fault flag
    and the same multiset of step statuses. *)
Theorem execution_status_precedence
    (execution_id test_name started_at : string) steps
    (completed_at : string) (duration_ms : nat)
    (harness_fault page_url : option string) (later : list Engine.event) :
  let e :=
    Engine.run execution_id test_name started_at
      ((Engine.concluded_step <$> steps)
       ++ Engine.Completed completed_at duration_ms harness_fault page_url
          :: later) in
  let statuses := StepResult.status <$> TestExecution.step_results e in
  statuses = Engine.reported_status <$> steps
  ∧ TestExecution.status e
    = match harness_fault with
      | Some _ => error
      | None =>
          if bool_decide (failed ∈ statuses) then failed
          else if bool_decide (Forall (λ s, s = skipped) statuses) then skipped
          else passed
      end
  ∧ TestExecution.status e
    = Engine.terminal_rule (bool_decide (is_Some harness_fault))
        (list_to_set_disj statuses)
  ∧ (∀ permuted,
       permuted ≡ₚ steps →
       TestExecution.status
         (Engine.run execution_id test_name started_at
            ((Engine.concluded_step <$> permuted)
             ++ Engine.Completed completed_at duration_ms harness_fault
                  page_url :: later))
       = TestExecution.status e)
  ∧ (∀ (execution_id' test_name' started_at' : string) steps'
       (completed_at' : string) (duration_ms' : nat)
       (harness_fault' page_url' : option string)
       (later' : list Engine.event),
       (is_Some harness_fault' ↔ is_Some harness_fault) →
       list_to_set_disj (Engine.reported_status <$> steps')
         =@{gmultiset ExecutionStatus.t} list_to_set_disj statuses →
       TestExecution.status
         (Engine.run execution_id' test_name' started_at'
            ((Engine.concluded_step <$> steps')
             ++ Engine.Completed completed_at' duration_ms' harness_fault'
                  page_url' :: later'))
       = TestExecution.status e).
Proof.
  intros e statuses.
  destruct (completed_run_status execution_id test_name started_at steps
              completed_at duration_ms harness_fault page_url later)
    as [Hstatuses Hstatus].
  fold e in Hstatuses, Hstatus. fold statuses in Hstatuses.
  rewrite <-Hstatuses in Hstatus. split_and!.
  - done.
  - rewrite Hstatus. unfold Engine.derive_status.
    destruct harness_fault; [done|]. apply foldl_absorb_skipped.
  - rewrite Hstatus. apply derive_status_rule.
  - intros permuted Hperm. rewrite Hstatus, Hstatuses.
    destruct (completed_run_status execution_id test_name started_at permuted
                completed_at duration_ms harness_fault page_url later)
      as [_ ->].
    apply derive_status_perm. by rewrite Hperm.
  - intros id' name' started' steps' at' d' fault' url' later' Hfault Hsame.
    destruct (completed_run_status id' name' started' steps' at' d' fault'
                url' later') as [_ ->].
    rewrite Hstatus.
    rewrite (bool_decide_ext _ _ Hfault).
    by apply derive_status_perm, same_multiset_perm.
Qed.

End ExecutionStatusFacts.

(* ===================================================================== *)
(** * Properties of validation                                            *)
(* ===================================================================== *)

Lemma validate_empty_body (tc : TestCaseCreate.t) :
  TestCaseCreate.steps tc = [] ↔ Validation.validate tc = Some Validation.EmptyBody.
Proof.
  unfold Validation.validate. split.
  - by intros ->.
  - destruct (TestCaseCreate.steps tc) as [|s body]; [done|]. intros H.
    apply head_Some_elem_of, list_elem_of_omap in H as (step & _ & H).
    unfold Validation.check_step in H. by repeat case_match.
Qed.

(** A rejected test case leaves the store as it was. *)
Lemma create_test_rejected (id now : string) (tc : TestCaseCreate.t)
    (persisted : Validation.store) (err : Validation.ValidationError) :
  (Validation.create_test id now tc persisted).1 = inl err →
  (Validation.create_test id now tc persisted).2 = persisted.
Proof. unfold Validation.create_test. by destruct (Validation.validate tc). Qed.

(** C7. A test case whose body [steps] is empty is rejected with a
    validation error and nothing is persisted; a test case with at least
    one body step is not rejected on this ground; whatever the ground, a
    rejection persists nothing. *)
Theorem empty_body_rejected (id now : string) (tc : TestCaseCreate.t)
    (persisted : Validation.store) :
  (TestCaseCreate.steps tc = [] →
     Validation.create_test id now tc persisted
     = (inl Validation.EmptyBody, persisted))
  ∧ (TestCaseCreate.steps tc ≠ [] →
     (Validation.create_test id now tc persisted).1 ≠ inl Validation.EmptyBody)
  ∧ (∀ err, (Validation.create_test id now tc persisted).1 = inl err →
            (Validation.create_test id now tc persisted).2 = persisted).
Proof.
  split_and!.
  - intros H%validate_empty_body. unfold Validation.create_test. by rewrite H.
  - intros Hbody Hrejected. apply Hbody, validate_empty_body.
    unfold Validation.create_test in Hrejected.
    destruct (Validation.validate tc) as [err|]; by simplify_eq/=.
  - apply create_test_rejected.
Qed.

(* ===================================================================== *)
(** * Properties of locator resolution                                    *)
(* ===================================================================== *)

Section Resolution.

Context {Page Element : Type}.
Variable matching : Locator.strategy → Page → list Element.

Implicit Types (page : Page) (todo : list Locator.strategy)
  (tried : list (Locator.strategy * nat)).

Lemma first_unique_failure page todo tried out :
  Locator.first_unique matching page todo tried = inl out →
  out = (tried ++ ((λ s, (s, length (matching s page))) <$> todo))%list
  ∧ Forall (Locator.inconclusive matching page) todo.
Proof.
  revert tried. induction todo as [|s todo IH]; intros tried; simpl.
  - intros [= <-]. by rewrite app_nil_r.
  - destruct (matching s page) as [|e [|e' found]] eqn:Hs; [|done|];
      intros [-> Hrest]%IH; rewrite <-app_assoc;
      (split; [done|]); (apply Forall_cons; split; [|done]);
      unfold Locator.inconclusive; by rewrite Hs.
Qed.

Lemma first_unique_hit page todo tried s e :
  Locator.first_unique matching page todo tried = inr (s, e) →
  ∃ before after,
    todo = (before ++ s :: after)%list
    ∧ Forall (Locator.inconclusive matching page) before
    ∧ matching s page = [e].
Proof.
  revert tried. induction todo as [|s' todo IH]; intros tried; simpl; [done|].
  destruct (matching s' page) as [|e' [|e'' found]] eqn:Hs.
  - intros (before & after & -> & Hbefore & Hhit)%IH.
    exists (s' :: before), after. split_and!; [done| |done].
    apply Forall_cons. split; [|done].
    unfold Locator.inconclusive. by rewrite Hs.
  - intros [= -> ->]. exists [], todo. by split_and!.
  - intros (before & after & -> & Hbefore & Hhit)%IH.
    exists (s' :: before), after. split_and!; [done| |done].
    apply Forall_cons. split; [|done].
    unfold Locator.inconclusive. by rewrite Hs.
Qed.

End Resolution.

(** The reference resolver hands the page back unchanged, and resolving
    it again on that page gives the same result: the same single match,
    found by the first candidate strategy that matches exactly one
    element, or the same failure, carrying the locator name and every
    candidate strategy with its match count, none of which is one. *)
Theorem resolve_idempotent {Page Element : Type}
    (matching : Locator.strategy → Page → list Element)
    (l : ElementLocator.t) (page : Page) :
  let first := Locator.resolve matching l page in
  let second := Locator.resolve matching l first.2 in
  first.2 = page
  ∧ second = first
  ∧ match first.1 with
    | inr (s, e) =>
        matching s page = [e]
        ∧ ∃ before after,
            Locator.candidates l = (before ++ s :: after)%list
            ∧ Forall (Locator.inconclusive matching page) before
    | inl err =>
        Locator.locator_name err = ElementLocator.name l
        ∧ Locator.attempts err
          = (λ s, (s, length (matching s page))) <$> Locator.candidates l
        ∧ Forall (Locator.inconclusive matching page) (Locator.candidates l)
    end.
Proof.
  intros first second.
  assert (first.2 = page) as Hpage.
  { unfold first, Locator.resolve. by destruct (Locator.first_unique _ _ _ _). }
  split; [done|]. split.
  { unfold second. by rewrite Hpage. }
  unfold first, Locator.resolve.
  destruct (Locator.first_unique _ _ _ _) as [tried|[s e]] eqn:H; simpl.
  - apply first_unique_failure in H as [-> Hall]. by split_and!.
  - apply first_unique_hit in H as (before & after & Hcands & Hbefore & Hhit).
    split; [done|]. by exists before, after.
Qed.

Section Reproducibility.

Context {Page Element : Type}.
Variable matching : Locator.strategy → Page → list Element.

Implicit Types (page : Page) (l : ElementLocator.t)
  (result : Locator.LocatorResolutionError + Locator.strategy * Element).

Lemma unique_conclusive page (s : Locator.strategy) (e : Element) :
  matching s page = [e] → ¬ Locator.inconclusive matching page s.
Proof. unfold Locator.inconclusive. intros -> H. by apply H. Qed.

(** The first conclusive strategy of a list is determined by the list. *)
Lemma first_conclusive_unique page
    (before before' after after' : list Locator.strategy)
    (s s' : Locator.strategy) :
  (before ++ s :: after = before' ++ s' :: after')%list →
  Forall (Locator.inconclusive matching page) before →
  Forall (Locator.inconclusive matching page) before' →
  ¬ Locator.inconclusive matching page s →
  ¬ Locator.inconclusive matching page s' →
  s = s'.
Proof.
  revert before'.
  induction before as [|x before IH]; intros [|x' before'] Heq Hb Hb' Hs Hs';
    simplify_eq/=.
  - done.
  - by apply Forall_cons in Hb' as [? _].
  - by apply Forall_cons in Hb as [? _].
  - apply Forall_cons in Hb as [_ Hb]. apply Forall_cons in Hb' as [_ Hb'].
    by apply (IH before').
Qed.

(** The contract leaves no choice: two results that meet it for the same
    locator on the same page are the same result. *)
Lemma meets_contract_unique l page result result' :
  Locator.meets_contract matching l page result →
  Locator.meets_contract matching l page result' →
  result = result'.
Proof.
  destruct result as [[name tried]|[s e]], result' as [[name' tried']|[s' e']];
    simpl.
  - intros (-> & -> & _) (-> & -> & _). done.
  - intros (_ & _ & Hall) (Hhit & before & after & Hcands & _).
    exfalso. apply (unique_conclusive _ _ _ Hhit).
    rewrite Forall_forall in Hall. apply Hall.
    rewrite Hcands, elem_of_app, elem_of_cons. right. by left.
  - intros (Hhit & before & after & Hcands & _) (_ & _ & Hall).
    exfalso. apply (unique_conclusive _ _ _ Hhit).
    rewrite Forall_forall in Hall. apply Hall.
    rewrite Hcands, elem_of_app, elem_of_cons. right. by left.
  - intros (Hhit & before & after & Hcands & Hbefore)
           (Hhit' & before' & after' & Hcands' & Hbefore').
    assert (s = s') as <-.
    { rewrite Hcands in Hcands'.
      by eapply (first_conclusive_unique page before before' after after');
        eauto using unique_conclusive. }
    rewrite Hhit in Hhit'. by simplify_eq.
Qed.

(** The contract can be met: the reference resolver meets it. *)
Lemma resolve_meets_contract l page :
  Locator.meets_contract matching l page (Locator.resolve matching l page).1.
Proof.
  unfold Locator.resolve.
  destruct (Locator.first_unique _ _ _ _) as [tried|[s e]] eqn:H; simpl.
  - apply first_unique_failure in H as [-> Hall]. by split_and!.
  - apply first_unique_hit in H as (before & after & Hcands & Hbefore & Hhit).
    split; [done|]. by exists before, after.
Qed.

Lemma reference_conforms : Locator.conforms matching (Locator.reference matching).
Proof.
  intros l page result page' Hanswer. unfold Locator.reference in Hanswer.
  pose proof (resolve_meets_contract l page) as Hmeets.
  rewrite <-Hanswer in Hmeets. split; [|done].
  unfold Locator.resolve in Hanswer.
  destruct (Locator.first_unique _ _ _ _); by simplify_eq.
Qed.

End Reproducibility.

(** C8. Whatever resolver an engine has, if it honours the resolution
    contract, then resolving a locator twice in a row leaves the page as it
    was and gives the same result both times: the same single match, of
    the first candidate strategy that matches exactly one element, or the
    same failure, carrying the locator name and every candidate strategy
    with its match count.  The result is the one the contract fixes, so no
    two runs, and no two resolvers, can differ on it. *)
Theorem resolution_reproducible {Page Element : Type}
    (matching : Locator.strategy → Page → list Element)
    (engine : Locator.resolver)
    (l : ElementLocator.t) (page page1 page2 : Page)
    (first second : Locator.LocatorResolutionError
                    + Locator.strategy * Element) :
  Locator.conforms matching engine →
  engine l page (first, page1) →
  engine l page1 (second, page2) →
  page1 = page
  ∧ page2 = page
  ∧ second = first
  ∧ Locator.meets_contract matching l page first
  ∧ first = (Locator.resolve matching l page).1.
Proof.
  intros Hconforms Hfirst Hsecond.
  destruct (Hconforms _ _ _ _ Hfirst) as [-> Hmeets].
  destruct (Hconforms _ _ _ _ Hsecond) as [-> Hmeets'].
  split_and!; try done.
  - by apply (meets_contract_unique matching l page).
  - apply (meets_contract_unique matching l page); [done|].
    apply resolve_meets_contract.
Qed.

(* ===================================================================== *)
(** * The properties on the sample data                                   *)
(* ===================================================================== *)

(** Three body steps, all passed. *)
Example all_passed_summary :
  let e := Sample.run Sample.all_passed in
  TestExecution.status e = ExecutionStatus.passed
  ∧ TestExecution.passed_steps e = 3
  ∧ TestExecution.failed_steps e = 0
  ∧ TestExecution.total_steps e = 3.
Proof. by vm_compute. Qed.

(** A failure is not cleared by the passing steps after it. *)
Example second_failed_summary :
  let e := Sample.run Sample.second_failed in
  TestExecution.status e = ExecutionStatus.failed
  ∧ TestExecution.passed_steps e = 3
  ∧ TestExecution.failed_steps e = 1
  ∧ TestExecution.total_steps e = 4.
Proof. by vm_compute. Qed.

(** A harness fault makes the run an error, whatever the steps did. *)
Example crashed_summary :
  let e := Sample.run Sample.crashed in
  TestExecution.status e = ExecutionStatus.error
  ∧ TestExecution.error_message e = Some "browser crashed"
  ∧ TestExecution.total_steps e = 2.
Proof. by vm_compute. Qed.

(** A step-level error without a harness fault does not make the run an
    error: the rule only looks for failed and skipped steps. *)
Example step_error_alone :
  Engine.derive_status false [ExecutionStatus.passed; ExecutionStatus.error]
  = ExecutionStatus.passed.
Proof. reflexivity. Qed.

(** No step results at all: every step result is skipped, vacuously. *)
Example no_steps_skipped :
  Engine.derive_status false [] = ExecutionStatus.skipped.
Proof. reflexivity. Qed.

Lemma derive_status_precedence_witness :
  Engine.derive_status false
    [ExecutionStatus.skipped; ExecutionStatus.failed; ExecutionStatus.passed]
  = ExecutionStatus.failed
  ∧ Engine.derive_status false
      [ExecutionStatus.passed; ExecutionStatus.skipped; ExecutionStatus.failed]
    = Engine.derive_status false
        [ExecutionStatus.skipped; ExecutionStatus.failed;
         ExecutionStatus.passed].
Proof.
  destruct (derive_status_precedence false
              [ExecutionStatus.skipped; ExecutionStatus.failed;
               ExecutionStatus.passed]) as (Hrule & _ & Hperm & _ & _).
  split.
  - exact Hrule.
  - apply Hperm.
    apply (Permutation_cons_append
             [ExecutionStatus.skipped; ExecutionStatus.failed]
             ExecutionStatus.passed).
Defined.

Lemma completed_execution_counts_witness :
  let e := Sample.run Sample.second_failed in
  is_Some (TestExecution.completed_at e)
  ∧ TestExecution.total_steps e = length (TestExecution.step_results e)
  ∧ TestExecution.total_steps e
    = TestExecution.passed_steps e + TestExecution.failed_steps e
      + Engine.count_status ExecutionStatus.skipped e
      + Engine.count_status ExecutionStatus.error e.
Proof.
  assert (is_Some (TestExecution.completed_at
                     (Sample.run Sample.second_failed))) as Hdone.
  { vm_compute. by eexists. }
  split; [exact Hdone|].
  exact (completed_execution_counts "exec-1" "login" "2024-05-01T10:00:00Z"
           Sample.second_failed Hdone).
Defined.

Lemma step_result_error_message_witness :
  let r := Engine.record_step Sample.press_login (Engine.Failed "timed out")
             900 true in
  r ∈ TestExecution.step_results (Sample.run Sample.second_failed)
  ∧ (is_Some (StepResult.error_message r)
     ↔ StepResult.status r = ExecutionStatus.failed
       ∨ StepResult.status r = ExecutionStatus.error).
Proof.
  intros r.
  assert (r ∈ TestExecution.step_results (Sample.run Sample.second_failed))
    as Hr.
  { apply (list_elem_of_lookup_2 _ 1). reflexivity. }
  split; [exact Hr|].
  exact (step_result_error_message "exec-1" "login" "2024-05-01T10:00:00Z"
           Sample.second_failed r Hr).
Defined.

(** The sample test case is accepted: tags are deduplicated, the two
    timestamps are equal, and the steps are numbered from 1. *)
Example login_test_accepted :
  ∃ saved,
    Validation.create_test "t-1" "2024-05-01T09:00:00Z" Sample.login_test []
    = (inr saved, [saved])
    ∧ TestCase.tags saved = ["auth"; "smoke"]
    ∧ TestCase.created_at saved = TestCase.updated_at saved
    ∧ TestStep.step_number <$> TestCase.steps saved = [1; 2; 3].
Proof. eexists. by vm_compute. Qed.

Lemma empty_body_rejected_witness :
  TestCaseCreate.steps Sample.no_body = []
  ∧ Validation.create_test "t-2" "2024-05-01T09:00:00Z" Sample.no_body []
    = (inl Validation.EmptyBody, [])
  ∧ TestCaseCreate.steps Sample.login_test ≠ []
  ∧ (Validation.create_test "t-1" "2024-05-01T09:00:00Z" Sample.login_test
       []).1
    ≠ inl Validation.EmptyBody.
Proof.
  destruct (empty_body_rejected "t-2" "2024-05-01T09:00:00Z" Sample.no_body [])
    as (Hempty & _ & _).
  destruct (empty_body_rejected "t-1" "2024-05-01T09:00:00Z"
              Sample.login_test []) as (_ & Hbody & _).
  assert (TestCaseCreate.steps Sample.login_test ≠ []) as Hsteps by done.
  split_and!; [reflexivity|by apply Hempty|exact Hsteps|by apply Hbody].
Defined.

(** A selector that matches two elements is inconclusive; the id, tried
    next, resolves. *)
Example login_button_resolved :
  ∃ e, Locator.resolve Sample.matching Sample.login_button Sample.login_page
       = (inr (Locator.ById "login", e), Sample.login_page)
       ∧ Sample.node_text e = "Log in".
Proof. eexists. by vm_compute. Qed.

(** A locator with only a selector that matches two elements fails. *)
Example ambiguous_selector_fails :
  Locator.resolve Sample.matching (Sample.by_css "any button" "button")
    Sample.login_page
  = (inl {| Locator.locator_name := "any button";
            Locator.attempts := [(Locator.ByCss "button", 2)] |},
     Sample.login_page).
Proof. reflexivity. Qed.

(** A locator without any hint has no candidate strategy and fails. *)
Example no_hints_fails :
  Locator.resolve Sample.matching (Sample.no_hints "nothing") Sample.login_page
  = (inl {| Locator.locator_name := "nothing"; Locator.attempts := [] |},
     Sample.login_page).
Proof. reflexivity. Qed.

(** Saving with an entered name, with an empty one, and without a
    generated test. *)
Example save_with_name :
  NewTestPage.requests NewTestPage.handleSave
    (Sample.page_state (Some Sample.login_test) "my login test")
  = [NewTestPage.createTest
       (NewTestPage.spread_with_name Sample.login_test "my login test")].
Proof. reflexivity. Qed.

Example save_with_empty_name :
  NewTestPage.requests NewTestPage.handleSave
    (Sample.page_state (Some Sample.login_test) "")
  = [NewTestPage.createTest Sample.login_test].
Proof. reflexivity. Qed.

Example save_without_test :
  NewTestPage.requests NewTestPage.handleSave (Sample.page_state None "x") = [].
Proof. reflexivity. Qed.

Example status_labels :
  (λ s, Badge.children
          (Badge.StatusBadge {| Badge.status := s; Badge.sb_className := None |}))
    <$> ExecutionStatus.all
  = ["Pending"; "Running"; "Passed"; "Failed"; "Skipped"; "Error"].
Proof. reflexivity. Qed.

(* ===================================================================== *)
(** * Properties of the execution card and the badge                      *)
(* ===================================================================== *)

(** X1. On an execution card the icon and its colour together identify
    the status: two statuses with the same icon and the same colour are the
    same status.  Neither does alone: running and pending share the clock,
    failed and error share the red. *)
Theorem card_icon_and_colour_identify_status :
  (∀ s s' : ExecutionStatus.t,
     (ExecutionsPage.StatusIcon s, ExecutionsPage.statusColor s)
     = (ExecutionsPage.StatusIcon s', ExecutionsPage.statusColor s')
     ↔ s = s')
  ∧ ExecutionsPage.StatusIcon ExecutionStatus.running
    = ExecutionsPage.StatusIcon ExecutionStatus.pending
  ∧ ExecutionsPage.statusColor ExecutionStatus.failed
    = ExecutionsPage.statusColor ExecutionStatus.error.
Proof.
  split_and!; [|done..].
  intros s s'. split; [|by intros ->].
  by destruct s, s'.
Qed.

(** X2. The card and the badge agree on the colour of a status: the
    colour class of the card's icon and the three classes of the badge's
    variant are shades of one and the same hue. *)
Theorem card_and_badge_same_hue (status : ExecutionStatus.t) :
  ∃ hue shade variant,
    ExecutionsPage.statusColor status = "text-" ++ hue ++ "-" ++ shade
    ∧ Badge.statusVariants status = Some variant
    ∧ Badge.variantStyles variant
      = "bg-" ++ hue ++ "-100 text-" ++ hue ++ "-800 border-" ++ hue ++ "-200".
Proof.
  destruct status;
    [ exists "yellow", "600", Badge.Variant.warning
    | exists "blue", "600", Badge.Variant.info
    | exists "green", "600", Badge.Variant.success
    | exists "red", "600", Badge.Variant.error
    | exists "slate", "400", Badge.Variant.default
    | exists "red", "600", Badge.Variant.error ];
    by split_and!.
Qed.

(** X3. The label of a status badge identifies the status: two badges
    show the same text only for the same status, whatever their class
    names. *)
Theorem badge_label_identifies_status
    (s s' : ExecutionStatus.t) (className className' : option string) :
  Badge.children
    (Badge.StatusBadge {| Badge.status := s; Badge.sb_className := className |})
  = Badge.children
      (Badge.StatusBadge
         {| Badge.status := s'; Badge.sb_className := className' |})
  ↔ s = s'.
Proof. split; [|by intros ->]. by destruct s, s'. Qed.

Section ExecutionCardFacts.

Variable cn : list (option string) → string.
Variable formatDuration : nat → string.
Variable formatRelativeTime : string → string.

Lemma ExecutionCard_no_keys (execution : TestExecution.t) :
  React.keyed_nodes
    (ExecutionsPage.ExecutionCard cn formatDuration formatRelativeTime
       execution) = [].
Proof.
  unfold ExecutionsPage.ExecutionCard, React.and_string.
  destruct (TestExecution.error_message execution) as [message|],
    (TestExecution.page_url execution) as [url|];
    by repeat case_bool_decide.
Qed.

End ExecutionCardFacts.

(** X4. An execution card shows the red error paragraph exactly when the
    execution has a non-empty [error_message], and then it holds the
    message; an empty message gives no paragraph, like an absent one. *)
Theorem ExecutionCard_error_paragraph
    (cn : list (option string) → string)
    (formatDuration : nat → string) (formatRelativeTime : string → string)
    (execution : TestExecution.t) :
  React.elements_with_tag "p"
    (ExecutionsPage.ExecutionCard cn formatDuration formatRelativeTime
       execution)
  = match TestExecution.error_message execution with
    | Some message =>
        if bool_decide (message = "") then []
        else [React.el "p" (Some "text-sm text-red-600 mt-1 truncate")
                [React.text message]]
    | None => []
    end.
Proof.
  unfold ExecutionsPage.ExecutionCard, React.and_string.
  destruct (TestExecution.error_message execution) as [message|],
    (TestExecution.page_url execution) as [url|];
    repeat case_bool_decide; by destruct (TestExecution.status execution).
Qed.

(* ===================================================================== *)
(** * Properties of the "create new test" page                            *)
(* ===================================================================== *)

Section NewTestPageFacts.

Import NewTestPage NewTestPageUi.

Implicit Types (st : state) (events : list event) (ev : event).

Lemma trimStart_visible (s : string) :
  Js.trimStart s ≠ "" ↔ has_visible_character s.
Proof.
  unfold has_visible_character.
  induction s as [|c s IH]; simpl.
  - split; [done|]. by intros ?%Exists_nil.
  - rewrite Exists_cons. destruct (Js.is_space c) eqn:Hc.
    + rewrite IH. split; [by right|]. by intros [|].
    + split; [by left|done].
Qed.

Lemma trim_truthy_empty : Js.trim_truthy "" = false.
Proof. reflexivity. Qed.

Lemma run_from_snoc st events ev :
  run_from st (events ++ [ev])
  = ((step (run_from st events).1 ev).1,
     ((run_from st events).2 ++ (step (run_from st events).1 ev).2)%list).
Proof.
  unfold run_from. rewrite foldl_app. simpl.
  by destruct (step _ ev).
Qed.

(** What the handlers do, event by event. *)
Lemma step_state st ev :
  (step st ev).1
  = match ev with
    | ClickMode m =>
        {| mode := m; naturalLanguage := naturalLanguage st;
           generatedTest := generatedTest st; testName := testName st |}
    | ChangeDescription value =>
        {| mode := mode st; naturalLanguage := value;
           generatedTest := generatedTest st; testName := testName st |}
    | ChangeTestName value =>
        {| mode := mode st; naturalLanguage := naturalLanguage st;
           generatedTest := generatedTest st; testName := value |}
    | Generated data =>
        match generated_by ev with
        | Some generated =>
            {| mode := mode st; naturalLanguage := naturalLanguage st;
               generatedTest := Some generated;
               testName := TestCaseCreate.name generated |}
        | None => st
        end
    | ClickGenerate | ClickSave | Saved _ => st
    end.
Proof.
  destruct ev as [m|value| |value| |data|saved]; try done.
  - unfold step, handleGenerate, mbind, handler_bind, read.
    cbv beta iota zeta. by destruct (Js.trim_truthy _).
  - by destruct st as [? ? [generated|] ?].
  - destruct data as [[] [test_case|] ? ? ?]; by destruct st.
Qed.

Lemma step_effects st ev :
  (step st ev).2
  = match ev with
    | ClickGenerate =>
        if Js.trim_truthy (naturalLanguage st)
        then [Request (generateTestFromNaturalLanguage
                         {| NaturalLanguageRequest.description :=
                              naturalLanguage st;
                            NaturalLanguageRequest.context := None |})]
        else []
    | ClickSave =>
        match generatedTest st with
        | Some generated =>
            [Request (createTest
                        (spread_with_name generated
                           (Js.or_else (testName st)
                              (TestCaseCreate.name generated))))]
        | None => []
        end
    | Saved savedTest => [Push ("/tests/" ++ TestCase.id savedTest)]
    | _ => []
    end.
Proof.
  destruct ev as [m|value| |value| |data|saved]; try done.
  - unfold step, handleGenerate, mbind, handler_bind, read.
    cbv beta iota zeta. by destruct (Js.trim_truthy _).
  - by destruct st as [? ? [generated|] ?].
  - by destruct data as [[] [test_case|] ? ? ?].
Qed.

Lemma was_generated_snoc events ev generated :
  was_generated events generated → was_generated (events ++ [ev]) generated.
Proof.
  intros (data & Hin & Hrest). exists data. split; [|done].
  apply elem_of_app. by left.
Qed.

Lemma generated_by_Some ev generated :
  generated_by ev = Some generated → was_generated [ev] generated.
Proof.
  destruct ev as [| | | | |data|]; try done. simpl.
  destruct (GeneratedTestResponse.success data) eqn:Hok; [|done].
  intros Hcase. exists data. split_and!; [apply list_elem_of_here|done..].
Qed.

(** What stays true of the page along every sequence of events: the test
    it holds was generated, the description it holds was typed, and its
    requests were built from those. *)
Lemma run_invariant events :
  (∀ generated, generatedTest (run events).1 = Some generated →
                was_generated events generated)
  ∧ (naturalLanguage (run events).1 = ""
     ∨ ChangeDescription (naturalLanguage (run events).1) ∈ events)
  ∧ (∀ sent, Request (createTest sent) ∈ (run events).2 →
       ∃ generated,
         was_generated events generated
         ∧ sent = spread_with_name generated (TestCaseCreate.name sent)
         ∧ (TestCaseCreate.name sent = ""
            → TestCaseCreate.name generated = ""))
  ∧ (∀ request,
       Request (generateTestFromNaturalLanguage request) ∈ (run events).2 →
       ChangeDescription (NaturalLanguageRequest.description request) ∈ events
       ∧ NaturalLanguageRequest.description request ≠ ""
       ∧ NaturalLanguageRequest.context request = None).
Proof.
  induction events as [|ev events (Hheld & Htyped & Hsaves & Hasks)]
    using rev_ind.
  { split_and!; [done|by left|intros ? []%elem_of_nil..]. }
  unfold run in *. rewrite run_from_snoc, step_state, step_effects.
  cbn [fst snd]. set (st := (run_from initial events).1) in *.
  set (effects := (run_from initial events).2) in *.
  split_and!.
  - intros generated Hnow.
    destruct (generated_by ev) as [fresh|] eqn:Hfresh.
    + destruct ev; try done. simpl in Hnow. simplify_eq.
      destruct (generated_by_Some _ _ Hfresh) as (data & ?%list_elem_of_singleton & ?).
      exists data. split; [|done]. apply elem_of_app. right.
      by apply list_elem_of_singleton.
    + apply was_generated_snoc, Hheld. by destruct ev.
  - destruct ev as [m|value| |value| |data|saved]; simpl;
      try (destruct Htyped as [?|?]; [by left|right; apply elem_of_app; by left]).
    + right. apply elem_of_app. right. apply list_elem_of_here.
    + destruct (GeneratedTestResponse.success data),
        (GeneratedTestResponse.test_case data); simpl;
        (destruct Htyped as [?|?]; [by left|right; apply elem_of_app; by left]).
  - intros sent [Hold|Hnew]%elem_of_app.
    + destruct (Hsaves sent Hold) as (generated & ? & ?).
      exists generated. split; [by apply was_generated_snoc|done].
    + destruct ev as [m|value| |value| |data|saved];
        try by apply elem_of_nil in Hnew.
      * destruct (Js.trim_truthy _);
          [by apply list_elem_of_singleton in Hnew|by apply elem_of_nil in Hnew].
      * destruct (generatedTest st) as [generated|] eqn:Hgenerated;
          [|by apply elem_of_nil in Hnew].
        apply list_elem_of_singleton in Hnew. simplify_eq.
        exists generated. split_and!.
        -- by apply was_generated_snoc, Hheld.
        -- done.
        -- simpl. unfold Js.or_else. by case_bool_decide.
      * by apply list_elem_of_singleton in Hnew.
  - intros request [Hold|Hnew]%elem_of_app.
    + destruct (Hasks request Hold) as (? & ? & ?).
      split_and!; [apply elem_of_app; by left|done..].
    + destruct ev as [m|value| |value| |data|saved];
        try by apply elem_of_nil in Hnew.
      * destruct (Js.trim_truthy (naturalLanguage st)) eqn:Htruthy;
          [|by apply elem_of_nil in Hnew].
        apply list_elem_of_singleton in Hnew. simplify_eq. simpl.
        destruct Htyped as [Hempty|Hin].
        { by rewrite Hempty, trim_truthy_empty in Htruthy. }
        split_and!; [apply elem_of_app; by left| |done].
        intros Hempty. by rewrite Hempty, trim_truthy_empty in Htruthy.
      * destruct (generatedTest st);
          [by apply list_elem_of_singleton in Hnew|by apply elem_of_nil in Hnew].
      * by apply list_elem_of_singleton in Hnew.
Qed.

(** X6. [handleGenerate] sends one generation request when the
    description has a character that is not white space, and none
    otherwise; the request carries the description as typed, untrimmed,
    and no context; the state cells are left alone. *)
Theorem handleGenerate_request st :
  is_ascii (naturalLanguage st) →
  requests handleGenerate st
  = (if bool_decide (has_visible_character (naturalLanguage st))
     then [generateTestFromNaturalLanguage
             {| NaturalLanguageRequest.description := naturalLanguage st;
                NaturalLanguageRequest.context := None |}]
     else [])
  ∧ final_state handleGenerate st = st.
Proof.
  intros _. unfold requests, final_state, handleGenerate.
  unfold mbind, handler_bind, read. cbv beta iota zeta.
  unfold Js.trim_truthy.
  rewrite (bool_decide_ext _ _ (trimStart_visible (naturalLanguage st))).
  by case_bool_decide.
Qed.

(** X7. Whatever the user does and whatever the generator answers, every
    create-test request of the page carries a test case that a successful
    generation returned, changed in nothing but its name; and its name is
    empty only if the generated name was. *)
Theorem createTest_provenance events (sent : TestCaseCreate.t) :
  Request (createTest sent) ∈ (run events).2 →
  ∃ data generated,
    Generated data ∈ events
    ∧ GeneratedTestResponse.success data = true
    ∧ GeneratedTestResponse.test_case data = Some generated
    ∧ TestCaseCreate.description sent = TestCaseCreate.description generated
    ∧ TestCaseCreate.tags sent = TestCaseCreate.tags generated
    ∧ TestCaseCreate.steps sent = TestCaseCreate.steps generated
    ∧ TestCaseCreate.setup_steps sent = TestCaseCreate.setup_steps generated
    ∧ TestCaseCreate.teardown_steps sent
      = TestCaseCreate.teardown_steps generated
    ∧ (TestCaseCreate.name sent = "" → TestCaseCreate.name generated = "").
Proof.
  intros Hsent.
  destruct (run_invariant events) as (_ & _ & Hsaves & _).
  destruct (Hsaves sent Hsent)
    as (generated & (data & Hin & Hok & Hcase) & Hspread & Hname).
  exists data, generated. rewrite Hspread. by split_and!.
Qed.

(** X8. Every generation request of the page carries a description that
    the user typed into the text area, verbatim and not empty, and no
    context. *)
Theorem generate_request_typed events (request : NaturalLanguageRequest.t) :
  Request (generateTestFromNaturalLanguage request) ∈ (run events).2 →
  ChangeDescription (NaturalLanguageRequest.description request) ∈ events
  ∧ NaturalLanguageRequest.description request ≠ ""
  ∧ NaturalLanguageRequest.context request = None.
Proof.
  intros Hsent. destruct (run_invariant events) as (_ & _ & _ & Hasks).
  by apply Hasks.
Qed.

Lemma omap_snoc {A B} (f : A → option B) (l : list A) (x : A) :
  omap f (l ++ [x])%list
  = (omap f l ++ match f x with Some y => [y] | None => [] end)%list.
Proof. rewrite omap_app. simpl. by destruct (f x). Qed.

Lemma last_omap_snoc {A B} (f : A → option B) (l : list A) (x : A) :
  last (omap f (l ++ [x])%list)
  = match f x with Some y => Some y | None => last (omap f l) end.
Proof.
  rewrite omap_snoc. destruct (f x).
  - apply last_snoc.
  - by rewrite app_nil_r.
Qed.

(** X9. After any sequence of events the page holds the test case of the
    most recent successful generation (an unsuccessful or empty response
    neither replaces nor clears it), the name cell holds what was written
    last, the user's edit or the name of a newly generated test, and the
    description holds what was typed last. *)
Theorem page_holds_latest events :
  generatedTest (run events).1 = last (omap generated_by events)
  ∧ testName (run events).1 = default "" (last (omap name_written_by events))
  ∧ naturalLanguage (run events).1 = default "" (last (omap typed events)).
Proof.
  induction events as [|ev events (Hheld & Hname & Htyped)] using rev_ind;
    [done|].
  unfold run in *. rewrite run_from_snoc, step_state, !last_omap_snoc.
  cbn [fst].
  destruct ev as [m|value| |value| |data|saved]; simpl; try done.
  by destruct (GeneratedTestResponse.success data),
    (GeneratedTestResponse.test_case data).
Qed.

(** X10. The two buttons agree with the guards of their handlers: the
    Save button is on the page exactly when [handleSave] would send a
    request, and the Generate button is disabled exactly when
    [handleGenerate] would send none. *)
Theorem buttons_agree_with_handlers (savePending generatePending : bool) st :
  (save_button savePending st = [] ↔ requests handleSave st = [])
  ∧ (React.prop_of "disabled" (generate_button generatePending st)
     = Some (React.PBool true)
     ↔ requests handleGenerate st = []).
Proof.
  split.
  - by destruct st as [? ? [generated|] ?].
  - unfold requests, handleGenerate, mbind, handler_bind, read.
    cbv beta iota zeta.
    change (React.prop_of "disabled" (generate_button generatePending st))
      with (Some (React.PBool (negb (Js.trim_truthy (naturalLanguage st))))).
    by destruct (Js.trim_truthy (naturalLanguage st)).
Qed.

End NewTestPageFacts.

(* ===================================================================== *)
(** * Properties of the list pages                                        *)
(* ===================================================================== *)

Section ListPages.

Variable cn : list (option string) → string.
Variable formatDuration : nat → string.
Variable formatRelativeTime : string → string.

Lemma keyed_cards (executions : list TestExecution.t) :
  List.flat_map React.keyed_nodes
    ((λ execution,
        React.keyed (TestExecution.execution_id execution)
          (ExecutionsPage.ExecutionCard cn formatDuration formatRelativeTime
             execution)) <$> executions)
  = (λ execution,
       (TestExecution.execution_id execution,
        ExecutionsPage.ExecutionCard cn formatDuration formatRelativeTime
          execution)) <$> executions.
Proof.
  induction executions as [|execution executions IH]; [done|].
  rewrite !fmap_cons. cbn [List.flat_map React.keyed_nodes].
  by rewrite ExecutionCard_no_keys, IH.
Qed.

Lemma main_cards (q : query_result (list TestExecution.t)) :
  React.keyed_nodes
    (ExecutionsPage.main cn formatDuration formatRelativeTime q)
  = if isLoading q then []
    else match error q with
         | Some _ => []
         | None =>
             (λ execution,
                (TestExecution.execution_id execution,
                 ExecutionsPage.ExecutionCard cn formatDuration
                   formatRelativeTime execution)) <$> default [] (data q)
         end.
Proof.
  unfold ExecutionsPage.main.
  destruct q as [[[|first rest]|] [] [failure|]]; try done.
  cbn [isLoading error data default React.keyed_nodes]. apply keyed_cards.
Qed.

End ListPages.

(** X11. The executions page shows no card while the list is loading or
    when loading it failed; otherwise it shows exactly one card for each
    execution, in the order of the list, keyed by the execution's id. *)
Theorem ExecutionsPage_cards
    (cn : list (option string) → string)
    (formatDuration : nat → string) (formatRelativeTime : string → string)
    (q : query_result (list TestExecution.t)) :
  React.keyed_nodes
    (ExecutionsPage.ExecutionsPage cn formatDuration formatRelativeTime q)
  = if isLoading q then []
    else match error q with
         | Some _ => []
         | None =>
             (λ execution,
                (TestExecution.execution_id execution,
                 ExecutionsPage.ExecutionCard cn formatDuration
                   formatRelativeTime execution)) <$> default [] (data q)
         end.
Proof.
  rewrite <-main_cards. unfold ExecutionsPage.ExecutionsPage.
  cbn [React.keyed_nodes List.flat_map Header.logo app].
  by rewrite !app_nil_r.
Qed.

(** X12. A test card shows a chip for each of the first three tags of the
    test, in their order, and for no other: at most three chips, and none
    at all for a test without tags.  The chips are the card's only keyed
    children, each keyed by its tag. *)
Theorem TestCard_tag_chips
    (cn : list (option string) → string)
    (formatRelativeTime : string → string) (test : TestCase.t) :
  React.keyed_nodes (TestsPage.TestCard cn formatRelativeTime test)
  = (λ tag,
       (tag,
        React.el "span" (Some "px-1.5 py-0.5 bg-slate-100 rounded text-xs")
          [React.text tag])) <$> take 3 (TestCase.tags test).
Proof.
  unfold TestsPage.TestCard, TestsPage.slice.
  by destruct (TestCase.tags test) as [|a [|b [|c rest]]],
    (TestCase.last_run_status test).
Qed.

(* ===================================================================== *)
(** * The page properties on the sample session                           *)
(* ===================================================================== *)

Lemma save_after_generate_witness :
  GeneratedTestResponse.success NewTestPageUi.sample_response = true
  ∧ GeneratedTestResponse.test_case NewTestPageUi.sample_response
    = Some Sample.login_test
  ∧ NewTestPage.requests NewTestPage.handleSave
      (NewTestPage.final_state
         (NewTestPage.onSuccess NewTestPageUi.sample_response)
         NewTestPageUi.initial)
    = [NewTestPage.createTest Sample.login_test].
Proof.
  split_and!; [reflexivity..|].
  exact (save_after_generate NewTestPageUi.sample_response Sample.login_test
           NewTestPageUi.initial eq_refl eq_refl).
Defined.

Lemma handleGenerate_request_witness :
  let st := Sample.page_state None "" in
  NewTestPageUi.is_ascii (NewTestPage.naturalLanguage st)
  ∧ NewTestPage.requests NewTestPage.handleGenerate st
    = (if bool_decide
            (NewTestPageUi.has_visible_character
               (NewTestPage.naturalLanguage st))
       then [NewTestPage.generateTestFromNaturalLanguage
               {| NaturalLanguageRequest.description :=
                    NewTestPage.naturalLanguage st;
                  NaturalLanguageRequest.context := None |}]
       else [])
  ∧ NewTestPage.final_state NewTestPage.handleGenerate st = st.
Proof.
  intros st.
  assert (NewTestPageUi.is_ascii (NewTestPage.naturalLanguage st)) as Hascii.
  { apply (bool_decide_unpack _). by vm_compute. }
  split; [exact Hascii|].
  exact (handleGenerate_request st Hascii).
Defined.

(** A description of blanks only sends nothing. *)
Example blank_description_sends_nothing :
  NewTestPage.requests NewTestPage.handleGenerate
    {| NewTestPage.mode := NewTestPage.natural;
       NewTestPage.naturalLanguage := "   ";
       NewTestPage.generatedTest := None;
       NewTestPage.testName := "" |}
  = [].
Proof. reflexivity. Qed.

(** The sample session: one generation request, then one save under the
    edited name, from manual mode. *)
Example sample_session_effects :
  (NewTestPageUi.run NewTestPageUi.sample_session).2
  = [ NewTestPageUi.Request
        (NewTestPage.generateTestFromNaturalLanguage
           {| NaturalLanguageRequest.description :=
                "log in and see the dashboard";
              NaturalLanguageRequest.context := None |});
      NewTestPageUi.Request
        (NewTestPage.createTest
           (NewTestPage.spread_with_name Sample.login_test "login works")) ].
Proof. reflexivity. Qed.

Lemma createTest_provenance_witness :
  let sent := NewTestPage.spread_with_name Sample.login_test "login works" in
  NewTestPageUi.Request (NewTestPage.createTest sent)
    ∈ (NewTestPageUi.run NewTestPageUi.sample_session).2
  ∧ ∃ data generated,
      NewTestPageUi.Generated data ∈ NewTestPageUi.sample_session
      ∧ GeneratedTestResponse.success data = true
      ∧ GeneratedTestResponse.test_case data = Some generated
      ∧ TestCaseCreate.description sent = TestCaseCreate.description generated
      ∧ TestCaseCreate.tags sent = TestCaseCreate.tags generated
      ∧ TestCaseCreate.steps sent = TestCaseCreate.steps generated
      ∧ TestCaseCreate.setup_steps sent = TestCaseCreate.setup_steps generated
      ∧ TestCaseCreate.teardown_steps sent
        = TestCaseCreate.teardown_steps generated
      ∧ (TestCaseCreate.name sent = "" → TestCaseCreate.name generated = "").
Proof.
  intros sent.
  assert (NewTestPageUi.Request (NewTestPage.createTest sent)
            ∈ (NewTestPageUi.run NewTestPageUi.sample_session).2) as Hsent.
  { apply (list_elem_of_lookup_2 _ 1). reflexivity. }
  split; [exact Hsent|].
  exact (createTest_provenance NewTestPageUi.sample_session sent Hsent).
Defined.

Lemma generate_request_typed_witness :
  let request :=
    {| NaturalLanguageRequest.description := "log in and see the dashboard";
       NaturalLanguageRequest.context := None |} in
  NewTestPageUi.Request (NewTestPage.generateTestFromNaturalLanguage request)
    ∈ (NewTestPageUi.run NewTestPageUi.sample_session).2
  ∧ NewTestPageUi.ChangeDescription
      (NaturalLanguageRequest.description request)
      ∈ NewTestPageUi.sample_session
  ∧ NaturalLanguageRequest.description request ≠ ""
  ∧ NaturalLanguageRequest.context request = None.
Proof.
  intros request.
  assert (NewTestPageUi.Request
            (NewTestPage.generateTestFromNaturalLanguage request)
            ∈ (NewTestPageUi.run NewTestPageUi.sample_session).2) as Hsent.
  { apply (list_elem_of_lookup_2 _ 0). reflexivity. }
  split; [exact Hsent|].
  exact (generate_request_typed NewTestPageUi.sample_session request Hsent).
Defined.

(* ===================================================================== *)
(** * The status of a run and the resolver on the samples                *)
(* ===================================================================== *)

Lemma execution_status_precedence_witness :
  let steps :=
    [ (Sample.open_page, Engine.Passed, 120, false);
      (Sample.press_login, Engine.Failed "timed out", 900, true);
      (Sample.see_welcome, Engine.Passed, 8, false);
      (Sample.sign_out, Engine.Passed, 20, false) ] in
  let failure_first :=
    [ (Sample.press_login, Engine.Failed "timed out", 900, true);
      (Sample.open_page, Engine.Passed, 120, false);
      (Sample.see_welcome, Engine.Passed, 8, false);
      (Sample.sign_out, Engine.Passed, 20, false) ] in
  TestExecution.status (Sample.run Sample.second_failed)
  = ExecutionStatus.failed
  ∧ TestExecution.status
      (Sample.run
         ((Engine.concluded_step <$> failure_first)
          ++ [Engine.Completed "2024-05-01T10:00:02Z" 1200 None None]))
    = TestExecution.status (Sample.run Sample.second_failed).
Proof.
  intros steps failure_first.
  destruct (execution_status_precedence "exec-1" "login"
              "2024-05-01T10:00:00Z" steps "2024-05-01T10:00:02Z" 1200
              None None [])
    as (_ & Hrule & _ & Hperm & _).
  split.
  - exact Hrule.
  - exact (Hperm failure_first (perm_swap _ _ _)).
Defined.

Lemma resolution_reproducible_witness :
  let first :=
    (Locator.resolve Sample.matching Sample.login_button Sample.login_page).1 in
  Locator.conforms Sample.matching (Locator.reference Sample.matching)
  ∧ Locator.reference Sample.matching Sample.login_button Sample.login_page
      (first, Sample.login_page)
  ∧ Sample.login_page = Sample.login_page
  ∧ Sample.login_page = Sample.login_page
  ∧ first = first
  ∧ Locator.meets_contract Sample.matching Sample.login_button
      Sample.login_page first
  ∧ first
    = (Locator.resolve Sample.matching Sample.login_button
         Sample.login_page).1.
Proof.
  intros first.
  pose proof (reference_conforms Sample.matching) as Hconforms.
  assert (Locator.reference Sample.matching Sample.login_button
            Sample.login_page (first, Sample.login_page)) as Hanswer
    by reflexivity.
  split; [exact Hconforms|]. split; [exact Hanswer|].
  exact (resolution_reproducible Sample.matching
           (Locator.reference Sample.matching) Sample.login_button
           Sample.login_page Sample.login_page Sample.login_page first first
           Hconforms Hanswer Hanswer).
Defined.
